(** * Furniture customizer: the HTTP orchestration layer

    A shallow embedding of the server's routes module (prompt generator,
    inference gateway handlers, upload store, project ledger) and of the
    cascading foreign keys declared in the initial schema migration, with
    the properties the specification states about them.

    What is modelled: the values a handler is given and answers with, the
    draws of [Math.random()] and the calls of [replicate.run] it makes, the
    upload directory and the ledger's tables.  What is not: logging, and
    failures of the database engine, which every ledger route answers with
    500. *)

From Stdlib Require Import String Ascii ZArith QArith Qround Bool List Lia.
From Stdlib Require Import Sorted Permutation.
From stdpp Require Import base option list strings gmap.
Import ListNotations.

Local Open Scope string_scope.

(** ** JavaScript strings

    Strings are sequences of 8-bit code units; the functions below are the
    [String.prototype] methods the routes call.  Case mapping is the ASCII
    one, which is all the lookups here can see: the keys and literals the
    routes compare against are ASCII, and no unit outside ASCII maps onto
    the characters they are made of. *)

Module JsString.

Definition is_lower (c : ascii) : bool :=
  let n := nat_of_ascii c in (97 <=? n)%nat && (n <=? 122)%nat.

Definition is_upper (c : ascii) : bool :=
  let n := nat_of_ascii c in (65 <=? n)%nat && (n <=? 90)%nat.

Definition is_digit (c : ascii) : bool :=
  let n := nat_of_ascii c in (48 <=? n)%nat && (n <=? 57)%nat.

Definition upper_char (c : ascii) : ascii :=
  if is_lower c then ascii_of_nat (nat_of_ascii c - 32) else c.

Definition lower_char (c : ascii) : ascii :=
  if is_upper c then ascii_of_nat (nat_of_ascii c + 32) else c.

Fixpoint map_chars (f : ascii -> ascii) (s : string) : string :=
  match s with
  | EmptyString => EmptyString
  | String c rest => String (f c) (map_chars f rest)
  end.

Definition toUpperCase : string -> string := map_chars upper_char.
Definition toLowerCase : string -> string := map_chars lower_char.

(** [s.startsWith(p)] *)
Definition startsWith (s p : string) : bool := String.prefix p s.

(** [s.includes(sub)] *)
Fixpoint includes (s sub : string) : bool :=
  String.prefix sub s ||
  match s with
  | EmptyString => false
  | String _ rest => includes rest sub
  end.

Fixpoint drop (n : nat) (s : string) : string :=
  match n, s with
  | O, _ => s
  | S _, EmptyString => EmptyString
  | S m, String _ rest => drop m rest
  end.

Fixpoint rev_append (acc s : string) : string :=
  match acc with
  | EmptyString => s
  | String c rest => rev_append rest (String c s)
  end.

(** [s.split(sep)] for a non-empty separator.  [skip] counts the code units
    of a separator that has just been matched and is still to be passed
    over; [cur] is the current piece, most recent code unit first. *)
Fixpoint split_from (sep : string) (skip : nat) (cur : string) (s : string)
  : list string :=
  match s with
  | EmptyString => [rev_append cur EmptyString]
  | String c rest =>
      match skip with
      | S k => split_from sep k cur rest
      | O =>
          if String.prefix sep s
          then rev_append cur EmptyString
                 :: split_from sep (String.length sep - 1) EmptyString rest
          else split_from sep 0 (String c cur) rest
      end
  end.

Definition split (s sep : string) : list string := split_from sep 0 EmptyString s.

Fixpoint drop_digits (s : string) : string :=
  match s with
  | String c rest => if is_digit c then drop_digits rest else s
  | EmptyString => EmptyString
  end.

(** [s.replace(/<lit>\d+/, repl)]: the first place where the literal [lit]
    is followed by at least one digit is replaced, digits taken greedily.
    The replacement is inserted as it stands. *)
Fixpoint replace_lit_digits (lit repl : string) (s : string) : string :=
  let after := drop (String.length lit) s in
  if String.prefix lit s && negb (String.eqb (drop_digits after) after)
  then repl +:+ drop_digits after
  else match s with
       | EmptyString => EmptyString
       | String c rest => String c (replace_lit_digits lit repl rest)
       end.


End JsString.

(** ** JavaScript values

    The values that reach the routes are JSON values (request bodies parsed
    by the JSON body parser, provider responses) plus [undefined] for an
    absent property.  A number is an exact rational: the routes never
    compute with the numbers they are handed, they forward them.  An
    object is the list of its own properties in enumeration order, which is
    the order [Object.values] follows. *)

#[warnings="-register-all"]
Inductive JsValue : Type :=
| JUndefined
| JNull
| JBool (b : bool)
| JNum (q : Q)
| JStr (s : string)
| JArr (items : list JsValue)
| JObj (props : list (string * JsValue)).

Definition JsObj : Type := list (string * JsValue).

Definition JInt (z : Z) : JsValue := JNum (inject_Z z).

(** [!!v] *)
Definition truthy (v : JsValue) : bool :=
  match v with
  | JUndefined | JNull => false
  | JBool b => b
  | JNum q => negb (Qnum q =? 0)%Z
  | JStr s => negb (String.eqb s "")
  | JArr _ | JObj _ => true
  end.

(** [typeof v === 'string'] *)
Definition is_string (v : JsValue) : bool :=
  match v with JStr _ => true | _ => false end.

(** [typeof v === 'object'] (which [null] satisfies too) *)
Definition typeof_object (v : JsValue) : bool :=
  match v with JNull | JArr _ | JObj _ => true | _ => false end.

(** [Array.isArray(v)] *)
Definition isArray (v : JsValue) : bool :=
  match v with JArr _ => true | _ => false end.

(** [a || b] *)
Definition js_or (a b : JsValue) : JsValue := if truthy a then a else b.

(** Own property of a parsed object, [undefined] when there is none. *)
Fixpoint get (k : string) (o : JsObj) : JsValue :=
  match o with
  | [] => JUndefined
  | (k', v) :: rest => if String.eqb k k' then v else get k rest
  end.

Fixpoint has (k : string) (o : JsObj) : bool :=
  match o with
  | [] => false
  | (k', _) :: rest => String.eqb k k' || has k rest
  end.

(** Destructuring default, [const { x = d } = obj]: the default is taken
    exactly when the property is [undefined]. *)
Definition with_default (d : JsValue) (v : JsValue) : JsValue :=
  match v with JUndefined => d | _ => v end.

(** [k in v] for the two names the gateway asks about, neither of which is
    an inherited member of an object or of an array. *)
Definition js_in (k : string) (v : JsValue) : bool :=
  match v with JObj props => has k props | _ => false end.

(** [v.k] on a value that is not [null] or [undefined]. *)
Definition member (k : string) (v : JsValue) : JsValue :=
  match v with JObj props => get k props | _ => JUndefined end.

(** [v[0]] on a value that is not [null] or [undefined]. *)
Definition index0 (v : JsValue) : JsValue :=
  match v with
  | JArr items => hd JUndefined items
  | JObj props => get "0" props
  | _ => JUndefined
  end.

(** [Object.values(v)] *)
Definition Object_values (v : JsValue) : list JsValue :=
  match v with
  | JArr items => items
  | JObj props => map snd props
  | _ => []
  end.

(** [typeof v === 'string' && v.startsWith(p)] *)
Definition is_string_startsWith (p : string) (v : JsValue) : bool :=
  match v with JStr s => JsString.startsWith s p | _ => false end.

(** ** Prompt generator *)

(** Reading a property off an object literal, [TABLE[key]]: the literal's
    own properties first, then the members every object inherits from
    [Object.prototype]. *)
Inductive Property : Type :=
| Own (value : string)
| Inherited (name : string)
| Missing.

Definition Object_prototype_members : list string :=
  [ "constructor"; "__defineGetter__"; "__defineSetter__"; "hasOwnProperty";
    "__lookupGetter__"; "__lookupSetter__"; "isPrototypeOf";
    "propertyIsEnumerable"; "toString"; "valueOf"; "__proto__";
    "toLocaleString" ].

Fixpoint assoc (key : string) (table : list (string * string)) : option string :=
  match table with
  | [] => None
  | (k, v) :: rest => if String.eqb key k then Some v else assoc key rest
  end.

Definition is_member_name (key : string) : bool :=
  existsb (String.eqb key) Object_prototype_members.

Definition literal_get (table : list (string * string)) (key : string) : Property :=
  match assoc key table with
  | Some v => Own v
  | None => if is_member_name key then Inherited key else Missing
  end.

(** What a template literal prints for an inherited member: the prototype
    object itself under [__proto__], the function [Object] under
    [constructor], the built-in method of that name under the others. *)
Definition inherited_text (name : string) : string :=
  if String.eqb name "__proto__" then "[object Object]"
  else if String.eqb name "constructor" then "function Object() { [native code] }"
  else "function " +:+ name +:+ "() { [native code] }".

(** [TABLE[key] || fallback], as it is then interpolated in a template. *)
Definition get_or (table : list (string * string)) (key fallback : string) : string :=
  match literal_get table key with
  | Own v => if String.eqb v "" then fallback else v
  | Inherited name => inherited_text name
  | Missing => fallback
  end.

Definition MATERIAL_TYPES : list (string * string) :=
  [ ("leather", "premium leather texture");
    ("fabric", "high-end textile weave");
    ("wood", "natural wood grain");
    ("metal", "brushed metal finish");
    ("velvet", "luxurious velvet upholstery");
    ("linen", "natural linen fabric");
    ("cotton", "premium cotton blend");
    ("microfiber", "soft microfiber material") ].

Definition FURNITURE_PARTS : list (string * string) :=
  [ ("cushion", "sofa cushion");
    ("seat", "chair seat");
    ("backrest", "chair backrest");
    ("armrest", "chair armrest");
    ("leg", "furniture leg");
    ("table_top", "table surface");
    ("drawer", "drawer front");
    ("door", "cabinet door");
    ("frame", "furniture frame") ].

Definition generateInpaintingPrompt (furniturePart material color : string) : string :=
  let materialDesc := get_or MATERIAL_TYPES material "premium material" in
  let partDesc := get_or FURNITURE_PARTS furniturePart "furniture part" in
  "Photorealistic " +:+ materialDesc +:+ " on " +:+ partDesc +:+ ", " +:+ color
    +:+ ", high-end textile weave, professional product photography, 8k resolution, maintaining original lighting and shadows, seamless material transition, no color bleeding, precise edges".

Definition colorMap : list (string * string) :=
  [ ("#FF0000", "red"); ("#00FF00", "green"); ("#0000FF", "blue");
    ("#FFFF00", "yellow"); ("#FF00FF", "magenta"); ("#00FFFF", "cyan");
    ("#000000", "black"); ("#FFFFFF", "white"); ("#808080", "gray");
    ("#800000", "maroon"); ("#008000", "dark green"); ("#000080", "navy");
    ("#FFA500", "orange"); ("#800080", "purple"); ("#A52A2A", "brown");
    ("#FFC0CB", "pink"); ("#F5DEB3", "wheat"); ("#D2B48C", "tan");
    ("#8B4513", "saddle brown"); ("#2F4F4F", "dark slate gray") ].

Definition getColorName (hex : string) : string :=
  get_or colorMap (JsString.toUpperCase hex) ("color " +:+ hex).

(** ** Handlers as programs over their external calls

    A handler's only dealings with the outside world, besides its response,
    are a draw of [Math.random()] and a call of [replicate.run(model,
    { input })].  A program is the tree of these calls; logging is left
    out. *)

Inductive ProviderOutcome : Type :=
| Resolved (output : JsValue)
| Rejected (message : string).

Inductive Prog (A : Type) : Type :=
| Ret (a : A)
| MathRandom (k : Q -> Prog A)
| ReplicateRun (model : string) (input : JsObj) (k : ProviderOutcome -> Prog A).

Arguments Ret {A} a.
Arguments MathRandom {A} k.
Arguments ReplicateRun {A} model input k.

(** What a [throw] inside a handler's [try] carries.  The [catch] block
    answers 500 with [error.message]; the message templates are
    - [InvalidOutputFormat (Some output)]:
        [`Invalid output format from model: ${JSON.stringify(output)}`]
    - [InvalidOutputFormat None]: ['Invalid output format from model']
    - [InvalidResultUrl v]:
        [`Invalid result URL received: ${JSON.stringify(v)}`]
    - [TypeError what]: the engine's "[what] is not a function" and the like
    - [ProviderError m]: the rejection of [replicate.run]. *)
Inductive Exception : Type :=
| TypeError (what : string)
| InvalidOutputFormat (payload : option JsValue)
| InvalidResultUrl (resultUrl : JsValue)
| ProviderError (message : string).

(** [res.status(s).json(body)]; [Failed m e] is
    [res.status(500).json({ message: m, error: e.message })]. *)
Inductive Response : Type :=
| Json (status : nat) (body : JsValue)
| Failed (message : string) (error : Exception).

Definition status_of (r : Response) : nat :=
  match r with Json s _ => s | Failed _ _ => 500%nat end.

(** The body of a [try] block: a program that ends in a value or a throw. *)
Definition Try (A : Type) : Type := Prog (Exception + A).

Fixpoint bind {A B : Type} (p : Try A) (f : A -> Try B) : Try B :=
  match p with
  | Ret (inl e) => Ret (inl e)
  | Ret (inr a) => f a
  | MathRandom k => MathRandom (fun r => bind (k r) f)
  | ReplicateRun model input k => ReplicateRun model input (fun o => bind (k o) f)
  end.

Definition ret {A : Type} (a : A) : Try A := Ret (inr a).
Definition throw {A : Type} (e : Exception) : Try A := Ret (inl e).
Definition lift {A : Type} (r : Exception + A) : Try A := Ret r.

Fixpoint try_catch (p : Try Response) (handler : Exception -> Response)
  : Prog Response :=
  match p with
  | Ret (inl e) => Ret (handler e)
  | Ret (inr r) => Ret r
  | MathRandom k => MathRandom (fun r => try_catch (k r) handler)
  | ReplicateRun model input k =>
      ReplicateRun model input (fun o => try_catch (k o) handler)
  end.

Declare Scope try_scope.
Delimit Scope try_scope with try.
Notation "x <- c1 ;; c2" := (bind c1 (fun x => c2))
  (at level 100, c1 at next level, right associativity) : try_scope.

(** [Math.floor(Math.random() * 1000000)] *)
Definition random_seed : Try Z :=
  MathRandom (fun r => ret (Qfloor (r * inject_Z 1000000))).

(** [await replicate.run(model, { input })] *)
Definition replicate_run (model : string) (input : JsObj) : Try JsValue :=
  ReplicateRun model input
    (fun o => match o with
              | Resolved output => ret output
              | Rejected message => throw (ProviderError message)
              end).

(** One call of the provider, as the provider sees it. *)
Record Call : Type := { call_model : string; call_input : JsObj }.

(** Running a program: [rnd i] is what the [i]-th draw of [Math.random()]
    returns, [provider] how the provider answers a call.  The result comes
    with the provider calls made, in order. *)
Fixpoint run {A : Type} (rnd : nat -> Q) (provider : Call -> ProviderOutcome)
    (i : nat) (p : Prog A) : A * list Call :=
  match p with
  | Ret a => (a, [])
  | MathRandom k => run rnd provider (S i) (k (rnd i))
  | ReplicateRun model input k =>
      let c := {| call_model := model; call_input := input |} in
      let '(a, calls) := run rnd provider i (k (provider c)) in
      (a, c :: calls)
  end.

Definition response_of (rnd : nat -> Q) (provider : Call -> ProviderOutcome)
    (p : Prog Response) : Response := fst (run rnd provider 0 p).

Definition calls_of (rnd : nat -> Q) (provider : Call -> ProviderOutcome)
    (p : Prog Response) : list Call := snd (run rnd provider 0 p).


(** ** Inference gateway *)

(** Deployment configuration read from [process.env]. *)
Record Env : Type := { REPLIT_DEV_DOMAIN : option string }.

(** [process.env.REPLIT_DEV_DOMAIN] when it is set to something truthy. *)
Definition dev_domain (env : Env) : option string :=
  match REPLIT_DEV_DOMAIN env with
  | Some d => if String.eqb d "" then None else Some d
  | None => None
  end.

(** The image URL made reachable for the provider (routes module, lines
    367-396). *)
Definition processedImageUrl (env : Env) (imageUrl : string) : string :=
  let processed :=
    if JsString.startsWith imageUrl "/uploads"
       || JsString.startsWith imageUrl "/attached_assets"
    then
      match dev_domain env with
      | Some d => ("https://" +:+ d) +:+ imageUrl
      | None => imageUrl
      end
    else if JsString.startsWith imageUrl "/@fs" then
      match dev_domain env with
      | Some domain =>
          match JsString.split imageUrl "/workspace/" !! 1%nat with
          | Some workspacePath =>
              if String.eqb workspacePath "" then imageUrl
              else "https://" +:+ domain +:+ "/" +:+ workspacePath
          | None => imageUrl
          end
      | None => imageUrl
      end
    else imageUrl in
  if JsString.includes processed "localhost"
     || JsString.includes processed "127.0.0.1"
  then
    match dev_domain env with
    | Some domain =>
        JsString.replace_lit_digits "http://127.0.0.1:" ("https://" +:+ domain)
          (JsString.replace_lit_digits "http://localhost:" ("https://" +:+ domain)
             processed)
    | None => processed
    end
  else processed.

(** Picking the result URL out of the provider's answer (routes module,
    lines 422-440). *)
Definition extractResultUrl (output : JsValue) : Exception + JsValue :=
  if isArray output && (0 <? length (Object_values output))%nat then
    inr (index0 output)
  else if is_string output then
    inr output
  else if truthy output && typeof_object output then
    if js_in "output" output && is_string (member "output" output) then
      inr (member "output" output)
    else if js_in "url" output && is_string (member "url" output) then
      inr (member "url" output)
    else if existsb (is_string_startsWith "http") (Object_values output) then
      inr (default JUndefined
             (List.find (is_string_startsWith "http") (Object_values output)))
    else
      inl (InvalidOutputFormat (Some output))
  else
    inl (InvalidOutputFormat None).

(** The check on the URL picked (routes module, lines 443-446). *)
Definition validateResultUrl (resultUrl : JsValue) : Exception + JsValue :=
  if negb (truthy resultUrl) || negb (is_string resultUrl)
     || negb (is_string_startsWith "http" resultUrl)
  then inl (InvalidResultUrl resultUrl)
  else inr resultUrl.

(** [getColorName(color)] on a value from the request body: a value that
    is not a string has no [toUpperCase]. *)
Definition call_getColorName (color : JsValue) : Exception + string :=
  match color with
  | JStr hex => inr (getColorName hex)
  | _ => inl (TypeError "hex.toUpperCase")
  end.

(** The input object of the SDXL call (routes module, lines 405-413). *)
Definition sdxl_input (prompt : string) (seed : Z) : JsObj :=
  [ ("prompt", JStr prompt);
    ("negative_prompt", JStr "blurry, low quality, distorted, deformed, pixelated");
    ("num_outputs", JInt 1);
    ("scheduler", JStr "K_EULER");
    ("num_inference_steps", JInt 50);
    ("guidance_scale", JNum (15 # 2));
    ("seed", JInt seed) ].

(** The input object of the FLUX Fill Pro call (routes module, lines
    311-320). *)
Definition flux_fill_input (imageUrl maskUrl : JsValue) (prompt : string)
    (promptStrength maskBlur : JsValue) (seed : Z) : JsObj :=
  [ ("image", imageUrl);
    ("mask", maskUrl);
    ("prompt", JStr prompt);
    ("prompt_strength", promptStrength);
    ("mask_blur", maskBlur);
    ("num_inference_steps", JInt 28);
    ("guidance_scale", JNum (7 # 2));
    ("seed", JInt seed) ].

(** The result URL of the inpainting route (routes module, line 324):
    [typeof output === 'string' ? output : output[0] || imageUrl]. *)
Definition inpaint_resultUrl (output imageUrl : JsValue) : Exception + JsValue :=
  match output with
  | JStr _ => inr output
  | JUndefined | JNull => inl (TypeError "output[0]")
  | _ => inr (js_or (index0 output) imageUrl)
  end.

Definition bad_request (message : string) : Response :=
  Json 400 (JObj [("message", JStr message)]).


Section Engine.

(** How the engine prints a number ([Number.prototype.toString]). *)
Variable Number_toString : Q -> string.

(** [String(v)], which is also what a template literal and a property key
    make of [v]. *)
Fixpoint ToString (v : JsValue) : string :=
  match v with
  | JUndefined => "undefined"
  | JNull => "null"
  | JBool b => if b then "true" else "false"
  | JNum q => Number_toString q
  | JStr s => s
  | JArr items =>
      let element x :=
        match x with JUndefined | JNull => "" | _ => ToString x end in
      (fix join (xs : list JsValue) : string :=
         match xs with
         | [] => ""
         | [x] => element x
         | x :: rest => element x +:+ "," +:+ join rest
         end) items
  | JObj _ => "[object Object]"
  end.

(** [POST /api/inpaint-professional] *)
Definition inpaint_professional (body : JsObj) : Prog Response :=
  let imageUrl := get "imageUrl" body in
  let maskUrl := get "maskUrl" body in
  let color := get "color" body in
  let material := with_default (JStr "fabric") (get "material" body) in
  let furniturePart := with_default (JStr "cushion") (get "furniturePart" body) in
  let promptStrength := with_default (JNum (1 # 2)) (get "promptStrength" body) in
  let maskBlur := with_default (JInt 0) (get "maskBlur" body) in
  if negb (truthy imageUrl) || negb (truthy maskUrl) || negb (truthy color) then
    Ret (bad_request "Missing required parameters: imageUrl, maskUrl, color")
  else
    try_catch
      (colorName <- lift (call_getColorName color) ;;
       let prompt :=
         generateInpaintingPrompt (ToString furniturePart) (ToString material)
           colorName in
       seed <- random_seed ;;
       output <- replicate_run "black-forest-labs/flux-fill-pro"
                   (flux_fill_input imageUrl maskUrl prompt promptStrength
                      maskBlur seed) ;;
       resultUrl <- lift (inpaint_resultUrl output imageUrl) ;;
       ret (Json 200
              (JObj [ ("resultUrl", resultUrl);
                      ("prompt", JStr prompt);
                      ("settings",
                        JObj [ ("promptStrength", promptStrength);
                               ("maskBlur", maskBlur);
                               ("material", material);
                               ("furniturePart", furniturePart);
                               ("color", JStr colorName) ]) ])))%try
      (Failed "Failed to apply professional material change").

(** The prompt of the recolor route (routes module, line 362). *)
Definition recolor_prompt (colorName : string) (material furniturePart : JsValue)
  : string :=
  colorName +:+ " " +:+ ToString material +:+ " " +:+ ToString furniturePart
    +:+ ", professional furniture photography, high-end, realistic, maintaining original lighting and shadows, seamless material transition, photorealistic".

(** [imageUrl.startsWith(...)] and what follows it up to the provider call:
    a value that is not a string has no [startsWith]. *)
Definition call_processedImageUrl (env : Env) (imageUrl : JsValue)
  : Exception + string :=
  match imageUrl with
  | JStr url => inr (processedImageUrl env url)
  | _ => inl (TypeError "imageUrl.startsWith")
  end.

(** [POST /api/professional-recolor] *)
Definition professional_recolor (env : Env) (body : JsObj) : Prog Response :=
  let imageUrl := get "imageUrl" body in
  let color := get "color" body in
  let material := with_default (JStr "fabric") (get "material" body) in
  let furniturePart := with_default (JStr "cushion") (get "furniturePart" body) in
  if negb (truthy imageUrl) || negb (truthy color) then
    Ret (bad_request "Missing required parameters: imageUrl, color")
  else
    try_catch
      (colorName <- lift (call_getColorName color) ;;
       let prompt := recolor_prompt colorName material furniturePart in
       processedImageUrl <- lift (call_processedImageUrl env imageUrl) ;;
       seed <- random_seed ;;
       output <- replicate_run "stability-ai/sdxl" (sdxl_input prompt seed) ;;
       resultUrl <- lift (extractResultUrl output) ;;
       resultUrl <- lift (validateResultUrl resultUrl) ;;
       ret (Json 200
              (JObj [ ("resultUrl", resultUrl);
                      ("maskUrl", imageUrl);
                      ("prompt", JStr prompt);
                      ("partLabel", furniturePart);
                      ("settings",
                        JObj [ ("material", material);
                               ("color", JStr colorName);
                               ("furniturePart", furniturePart) ]) ])))%try
      (Failed "Failed to change furniture color").

End Engine.

(** The printing of an integral number, for the concrete requests below
    (the engine prints integers below 10^21 in plain decimal). *)
Fixpoint decimal_digits (fuel : nat) (n : N) (acc : string) : string :=
  match fuel with
  | O => acc
  | S fuel' =>
      let acc' := String (ascii_of_N (48 + n mod 10)) acc in
      if (n / 10 =? 0)%N then acc' else decimal_digits fuel' (n / 10) acc'
  end.

Definition integer_toString (q : Q) : string :=
  let z := Qfloor q in
  (if (z <? 0)%Z then "-" else "")
    +:+ decimal_digits (S (N.to_nat (N.log2 (Z.abs_N z)))) (Z.abs_N z) "".

(** Which requests get as far as the provider call. *)
Definition recolor_reaches_provider (body : JsObj) : bool :=
  let imageUrl := get "imageUrl" body in
  let color := get "color" body in
  truthy imageUrl && truthy color && is_string color && is_string imageUrl.

Definition inpaint_reaches_provider (body : JsObj) : bool :=
  let imageUrl := get "imageUrl" body in
  let maskUrl := get "maskUrl" body in
  let color := get "color" body in
  truthy imageUrl && truthy maskUrl && truthy color && is_string color.


(** The one provider call of a recolor request, given the draw. *)
Definition recolor_call (Number_toString : Q -> string) (body : JsObj) (r : Q)
  : Call :=
  let material := with_default (JStr "fabric") (get "material" body) in
  let furniturePart := with_default (JStr "cushion") (get "furniturePart" body) in
  let colorName :=
    match get "color" body with JStr hex => getColorName hex | _ => "" end in
  {| call_model := "stability-ai/sdxl";
     call_input :=
       sdxl_input (recolor_prompt Number_toString colorName material furniturePart)
         (Qfloor (r * inject_Z 1000000)) |}.

(** The one provider call of an inpainting request, given the draw. *)
Definition inpaint_call (Number_toString : Q -> string) (body : JsObj) (r : Q)
  : Call :=
  let material := with_default (JStr "fabric") (get "material" body) in
  let furniturePart := with_default (JStr "cushion") (get "furniturePart" body) in
  let promptStrength := with_default (JNum (1 # 2)) (get "promptStrength" body) in
  let maskBlur := with_default (JInt 0) (get "maskBlur" body) in
  let colorName :=
    match get "color" body with JStr hex => getColorName hex | _ => "" end in
  {| call_model := "black-forest-labs/flux-fill-pro";
     call_input :=
       flux_fill_input (get "imageUrl" body) (get "maskUrl" body)
         (generateInpaintingPrompt (ToString Number_toString furniturePart)
            (ToString Number_toString material) colorName)
         promptStrength maskBlur (Qfloor (r * inject_Z 1000000)) |}.




(** Concrete requests and deployments for the examples. *)
Definition no_domain : Env := {| REPLIT_DEV_DOMAIN := None |}.

Definition red_sofa : JsObj :=
  [ ("imageUrl", JStr "http://x/a.png"); ("color", JStr "#FF0000") ].



Definition draws (r : Q) : nat -> Q := fun _ => r.

Definition answers (output : JsValue) : Call -> ProviderOutcome :=
  fun _ => Resolved output.

(** ** Upload store *)

Definition ALLOWED_MIME_TYPES : list string :=
  [ "image/jpeg"; "image/jpg"; "image/png"; "image/gif"; "image/webp" ].

(** The file of a multipart request as multer hands it over: the name the
    client gave it, the MIME type the client declared, its size in bytes
    and, under memory storage, its bytes. *)
Record File : Type :=
  { originalname : string;
    mimetype : string;
    size : N;
    buffer : list Byte.byte }.

(** The [fileFilter] option: [cb(null, true)] or [cb(new Error(...))]. *)
Definition fileFilter (file : File) : bool :=
  existsb (String.eqb (mimetype file)) ALLOWED_MIME_TYPES.

(** The [limits.fileSize] option. *)
Definition fileSize_limit : N := 10 * 1024 * 1024.

Inductive UploadError : Type :=
| InvalidFileType (message : string)
| LIMIT_FILE_SIZE.

(** [upload.single("image")], the middleware in front of the route: the
    filter is asked about the file part, a file larger than the limit is
    cut off, and on either error the middleware passes the error on and the
    route handler does not run.  A request with no file part goes through
    with [req.file] undefined. *)
Definition upload_single (part : option File) : UploadError + option File :=
  match part with
  | None => inr None
  | Some file =>
      if negb (fileFilter file)
      then inl (InvalidFileType "Invalid file type. Only images are allowed.")
      else if (fileSize_limit <? size file)%N then inl LIMIT_FILE_SIZE
      else inr (Some file)
  end.

(** The upload directory, as a map from file path to contents. *)
Abbreviation Disk := (gmap string (list Byte.byte)).

(** Whether the disk takes the write. *)
Inductive WriteOutcome : Type := Written | WriteFailed.

Definition UPLOAD_DIR : string := "uploads".

(** [join(UPLOAD_DIR, name)] for a name without separators. *)
Definition join (dir name : string) : string := dir +:+ "/" +:+ name.

(** How the upload route ends: refused by the middleware, or answered by
    the handler. *)
Inductive UploadOutcome : Type :=
| Refused (error : UploadError)
| Answered (response : Response).

Section UploadRoute.

(** [path.extname] *)
Variable extname : string -> string.

Definition safeFileName (uuid : string) (file : File) : string :=
  uuid +:+ JsString.toLowerCase (extname (originalname file)).

(** [POST /api/upload]; [uuid] is what [randomUUID()] returns. *)
Definition post_upload (env : Env) (uuid : string) (disk_takes : WriteOutcome)
    (part : option File) (disk : Disk) : UploadOutcome * Disk :=
  match upload_single part with
  | inl error => (Refused error, disk)
  | inr None => (Answered (bad_request "No file uploaded"), disk)
  | inr (Some file) =>
      let filePath := join UPLOAD_DIR (safeFileName uuid file) in
      match disk_takes with
      | WriteFailed =>
          (Answered (Json 500 (JObj [("message", JStr "Failed to upload file")])),
           disk)
      | Written =>
          let imagePath := "/uploads/" +:+ safeFileName uuid file in
          let domain :=
            match dev_domain env with
            | Some d => "https://" +:+ d
            | None => "http://localhost:5000"
            end in
          let fullUrl := domain +:+ imagePath in
          (Answered
             (Json 200
                (JObj [ ("path", JStr imagePath);
                        ("fullUrl", JStr fullUrl);
                        ("filename", JStr (originalname file));
                        ("size", JInt (Z.of_N (size file)));
                        ("mimetype", JStr (mimetype file)) ])),
           <[filePath := buffer file]> disk)
      end
  end.

End UploadRoute.

(** [path.extname] on a plain file name: from its last dot on, and nothing
    when it has no dot. *)
Fixpoint extname_plain (name : string) : string :=
  match name with
  | EmptyString => EmptyString
  | String c rest =>
      if JsString.includes rest "." then extname_plain rest
      else if Ascii.eqb c "."%char then name
      else EmptyString
  end.

Definition sofa_png : File :=
  {| originalname := "Sofa.PNG"; mimetype := "image/png"; size := 4;
     buffer := [Byte.x89; Byte.x50; Byte.x4e; Byte.x47] |}.


Definition huge_png : File :=
  {| originalname := "huge.png"; mimetype := "image/png"; size := 10485761;
     buffer := [] |}.

(** ** Project ledger *)

(** The tables of the schema migration.  A [uuid] is its text, a timestamp
    a count of milliseconds, a [numeric] a rational, a [jsonb] a JSON
    value; a nullable column is an [option]. *)

Definition Id : Type := string.

Record Project : Type :=
  { project_id : Id;
    project_name : string;
    project_description : option string;
    project_preview_image_url : option string;
    project_created_at : Z;
    project_updated_at : Z }.

Record ProjectImage : Type :=
  { image_id : Id;
    image_project_id : Id;
    image_original_image_path : string;
    image_mime_type : string;
    image_width : Z;
    image_height : Z;
    image_created_at : Z }.

Record SegmentationMask : Type :=
  { mask_id : Id;
    mask_image_id : Id;
    mask_click_x : option Z;
    mask_click_y : option Z;
    mask_data : string;
    mask_bounding_box : JsValue;
    mask_part_label : option string;
    mask_confidence : option Q;
    mask_area : option Z;
    mask_material : option string;
    mask_furniture_part : option string;
    mask_created_at : Z }.

Record ColorApplication : Type :=
  { color_id : Id;
    color_project_id : Id;
    color_mask_id : Id;
    color_fill_hex : string;
    color_opacity : Q;
    color_blend_mode : string;
    color_created_at : Z }.

Record ProfessionalResult : Type :=
  { result_id : Id;
    result_project_id : Id;
    result_mask_id : Id;
    result_original_image_url : string;
    result_mask_url : string;
    result_result_url : string;
    result_prompt : string;
    result_material : string;
    result_furniture_part : string;
    result_color : string;
    result_prompt_strength : Q;
    result_mask_blur : Z;
    result_processing_time_ms : option Z;
    result_created_at : Z }.

Record RecentColor : Type :=
  { recent_id : Id;
    recent_project_id : option Id;
    recent_hex : string;
    recent_color_code : option string;
    recent_color_name : option string;
    recent_used_at : Z }.

Record CanvasState : Type :=
  { canvas_id : Id;
    canvas_project_id : Id;
    canvas_json : JsValue;
    canvas_zoom : Q;
    canvas_updated_at : Z }.

Record DB : Type :=
  { projects : list Project;
    project_images : list ProjectImage;
    segmentation_masks : list SegmentationMask;
    color_applications : list ColorApplication;
    professional_results : list ProfessionalResult;
    recent_colors : list RecentColor;
    canvas_states : list CanvasState }.

(** [id] is among [ids]. *)
Definition among (id : Id) (ids : list Id) : bool := existsb (String.eqb id) ids.

(** [DELETE FROM projects WHERE id = $1] under the schema's foreign keys,
    every one of which is [ON DELETE CASCADE]: the rows of [projects] with
    that id go, and with each row that goes the rows that reference it. *)
Definition delete_from_projects (id : Id) (db : DB) : DB :=
  let dead_projects :=
    map project_id (List.filter (fun p => String.eqb (project_id p) id) (projects db)) in
  let dead_images :=
    map image_id
      (List.filter (fun i => among (image_project_id i) dead_projects)
         (project_images db)) in
  let dead_masks :=
    map mask_id
      (List.filter (fun m => among (mask_image_id m) dead_images)
         (segmentation_masks db)) in
  {| projects :=
       List.filter (fun p => negb (String.eqb (project_id p) id)) (projects db);
     project_images :=
       List.filter (fun i => negb (among (image_project_id i) dead_projects))
         (project_images db);
     segmentation_masks :=
       List.filter (fun m => negb (among (mask_image_id m) dead_images))
         (segmentation_masks db);
     color_applications :=
       List.filter
         (fun c => negb (among (color_project_id c) dead_projects
                         || among (color_mask_id c) dead_masks))
         (color_applications db);
     professional_results :=
       List.filter
         (fun r => negb (among (result_project_id r) dead_projects
                         || among (result_mask_id r) dead_masks))
         (professional_results db);
     recent_colors :=
       List.filter
         (fun c => match recent_project_id c with
                   | Some p => negb (among p dead_projects)
                   | None => true
                   end)
         (recent_colors db);
     canvas_states :=
       List.filter (fun s => negb (among (canvas_project_id s) dead_projects))
         (canvas_states db) |}.

(** Every foreign key of the schema points at a row that is there. *)
Definition references_live (db : DB) : bool :=
  let project_ids := map project_id (projects db) in
  let image_ids := map image_id (project_images db) in
  let mask_ids := map mask_id (segmentation_masks db) in
  forallb (fun i => among (image_project_id i) project_ids) (project_images db)
  && forallb (fun m => among (mask_image_id m) image_ids) (segmentation_masks db)
  && forallb (fun c => among (color_project_id c) project_ids
                       && among (color_mask_id c) mask_ids)
       (color_applications db)
  && forallb (fun r => among (result_project_id r) project_ids
                       && among (result_mask_id r) mask_ids)
       (professional_results db)
  && forallb (fun c => match recent_project_id c with
                       | Some p => among p project_ids
                       | None => true
                       end)
       (recent_colors db)
  && forallb (fun s => among (canvas_project_id s) project_ids) (canvas_states db).

(** The rows that hang on project [id]: its images, the masks of those
    images, and the color applications, results and canvas states that
    name the project or one of those masks. *)
Definition images_of (id : Id) (db : DB) : list ProjectImage :=
  List.filter (fun i => String.eqb (image_project_id i) id) (project_images db).

Definition masks_of (id : Id) (db : DB) : list SegmentationMask :=
  List.filter (fun m => among (mask_image_id m) (map image_id (images_of id db)))
    (segmentation_masks db).

Definition hangs_on_project (id : Id) (db0 db : DB) : bool :=
  existsb (fun i => String.eqb (image_project_id i) id) (project_images db)
  || existsb (fun m => among (mask_image_id m) (map image_id (images_of id db0)))
       (segmentation_masks db)
  || existsb (fun c => String.eqb (color_project_id c) id
                       || among (color_mask_id c) (map mask_id (masks_of id db0)))
       (color_applications db)
  || existsb (fun r => String.eqb (result_project_id r) id
                       || among (result_mask_id r) (map mask_id (masks_of id db0)))
       (professional_results db)
  || existsb (fun s => String.eqb (canvas_project_id s) id) (canvas_states db).

(** What a ledger route answers: rows with status 200, or a status and a
    message. *)
Inductive LedgerAnswer : Type :=
| ProjectDetail (project : Project) (images : list ProjectImage)
    (colorApplications : list ColorApplication)
| ProjectRow (project : Project)
| Message (status : nat) (message : string).


(** [GET /api/projects/:id] *)
Definition get_project (id : Id) (db : DB) : LedgerAnswer :=
  match List.filter (fun p => String.eqb (project_id p) id) (projects db) with
  | [] => Message 404 "Project not found"
  | project :: _ =>
      ProjectDetail project
        (List.filter (fun i => String.eqb (image_project_id i) id) (project_images db))
        (List.filter (fun c => String.eqb (color_project_id c) id)
           (color_applications db))
  end.

(** [DELETE /api/projects/:id] *)
Definition delete_project (id : Id) (db : DB) : LedgerAnswer * DB :=
  (Message 200 "Project deleted successfully", delete_from_projects id db).

Section ProjectSchema.

(** [insertProjectSchema] of the shared schema module, which is not among
    the sources: what it parses a body into ([None] for a [ZodError]) and
    how the parsed fields are set on a row together with [updatedAt]. *)
Variable InsertProject : Type.
Variable insertProjectSchema_parse : JsValue -> option InsertProject.
Variable set_project : InsertProject -> Z -> Project -> Project.

(** [PUT /api/projects/:id]; [now] is [new Date()]. *)
Definition put_project (now : Z) (id : Id) (body : JsValue) (db : DB)
  : LedgerAnswer * DB :=
  match insertProjectSchema_parse body with
  | None => (Message 400 "Invalid project data", db)
  | Some validated =>
      let db' :=
        {| projects :=
             map (fun p => if String.eqb (project_id p) id
                           then set_project validated now p else p)
               (projects db);
           project_images := project_images db;
           segmentation_masks := segmentation_masks db;
           color_applications := color_applications db;
           professional_results := professional_results db;
           recent_colors := recent_colors db;
           canvas_states := canvas_states db |} in
      match List.filter (fun p => String.eqb (project_id p) id) (projects db) with
      | [] => (Message 404 "Project not found", db')
      | p :: _ => (ProjectRow (set_project validated now p), db')
      end
  end.

End ProjectSchema.

(** A small ledger for the examples: one project with an image, a mask on
    it, a color, a result and a canvas, and a second project with an image
    of its own. *)
Definition sample_db : DB :=
  {| projects :=
       [ {| project_id := "p1"; project_name := "Sofa";
            project_description := None; project_preview_image_url := None;
            project_created_at := 1; project_updated_at := 1 |};
         {| project_id := "p2"; project_name := "Chair";
            project_description := None; project_preview_image_url := None;
            project_created_at := 2; project_updated_at := 2 |} ];
     project_images :=
       [ {| image_id := "i1"; image_project_id := "p1";
            image_original_image_path := "/uploads/sofa.png";
            image_mime_type := "image/png"; image_width := 800;
            image_height := 600; image_created_at := 3 |};
         {| image_id := "i2"; image_project_id := "p2";
            image_original_image_path := "/uploads/chair.png";
            image_mime_type := "image/png"; image_width := 640;
            image_height := 480; image_created_at := 4 |} ];
     segmentation_masks :=
       [ {| mask_id := "m1"; mask_image_id := "i1"; mask_click_x := Some 10%Z;
            mask_click_y := Some 20%Z; mask_data := "/uploads/sofa.png";
            mask_bounding_box := JObj []; mask_part_label := None;
            mask_confidence := None; mask_area := None;
            mask_material := Some "fabric";
            mask_furniture_part := Some "cushion"; mask_created_at := 5 |} ];
     color_applications :=
       [ {| color_id := "c1"; color_project_id := "p2"; color_mask_id := "m1";
            color_fill_hex := "#FF0000"; color_opacity := 4 # 5;
            color_blend_mode := "multiply"; color_created_at := 6 |} ];
     professional_results :=
       [ {| result_id := "r1"; result_project_id := "p1"; result_mask_id := "m1";
            result_original_image_url := "/uploads/sofa.png";
            result_mask_url := "/uploads/sofa.png";
            result_result_url := "http://result/b.png";
            result_prompt := "red fabric cushion";
            result_material := "fabric"; result_furniture_part := "cushion";
            result_color := "#FF0000"; result_prompt_strength := 1 # 2;
            result_mask_blur := 0; result_processing_time_ms := None;
            result_created_at := 7 |} ];
     recent_colors :=
       [ {| recent_id := "k1"; recent_project_id := Some "p1";
            recent_hex := "#FF0000"; recent_color_code := None;
            recent_color_name := Some "red"; recent_used_at := 8 |} ];
     canvas_states :=
       [ {| canvas_id := "s1"; canvas_project_id := "p1";
            canvas_json := JObj []; canvas_zoom := 1; canvas_updated_at := 9 |} ] |}.

Definition empty_db : DB :=
  {| projects := []; project_images := []; segmentation_masks := [];
     color_applications := []; professional_results := [];
     recent_colors := []; canvas_states := [] |}.

(** A stand-in for the project schema in the examples: a body is valid
    when it has a string [name], which is what gets set. *)
Definition parse_name (body : JsValue) : option string :=
  match member "name" body with JStr name => Some name | _ => None end.

Definition set_name (name : string) (now : Z) (p : Project) : Project :=
  {| project_id := project_id p;
     project_name := name;
     project_description := project_description p;
     project_preview_image_url := project_preview_image_url p;
     project_created_at := project_created_at p;
     project_updated_at := now |}.

(** ** The other ledger routes *)

(** [ORDER BY updated_at DESC]: the rows, latest update first. *)
Fixpoint insert_by_updated (p : Project) (rows : list Project) : list Project :=
  match rows with
  | [] => [p]
  | q :: rest =>
      if (project_updated_at q <=? project_updated_at p)%Z
      then p :: rows
      else q :: insert_by_updated p rest
  end.

Definition order_by_updated_desc (rows : list Project) : list Project :=
  fold_right insert_by_updated [] rows.

(** [p] was last updated no earlier than [q]. *)
Definition not_before (p q : Project) : Prop :=
  (project_updated_at q <= project_updated_at p)%Z.

(** [GET /api/projects]: answered 200 with these rows. *)
Definition get_projects (db : DB) : list Project :=
  order_by_updated_desc (projects db).

(** [{ ...o, k: v }]: the properties of [o] with [k] set to [v], in place
    when [o] has it and at the end when it has not. *)
Fixpoint set_prop (k : string) (v : JsValue) (o : JsObj) : JsObj :=
  match o with
  | [] => [(k, v)]
  | (k', v') :: rest =>
      if String.eqb k k' then (k, v) :: rest else (k', v') :: set_prop k v rest
  end.

(** What an inserting route answers: the row that [RETURNING] gives, with
    status 200, or a status and a message. *)
Inductive InsertAnswer (Row : Type) : Type :=
| Inserted (row : Row)
| NotInserted (status : nat) (message : string).

Arguments Inserted {Row} row.
Arguments NotInserted {Row} status message.

Definition insert_status {Row : Type} (a : InsertAnswer Row) : nat :=
  match a with Inserted _ => 200%nat | NotInserted status _ => status end.

Definition with_projects (db : DB) (rows : list Project) : DB :=
  {| projects := rows;
     project_images := project_images db;
     segmentation_masks := segmentation_masks db;
     color_applications := color_applications db;
     professional_results := professional_results db;
     recent_colors := recent_colors db;
     canvas_states := canvas_states db |}.

Definition with_project_images (db : DB) (rows : list ProjectImage) : DB :=
  {| projects := projects db;
     project_images := rows;
     segmentation_masks := segmentation_masks db;
     color_applications := color_applications db;
     professional_results := professional_results db;
     recent_colors := recent_colors db;
     canvas_states := canvas_states db |}.

Definition with_color_applications (db : DB) (rows : list ColorApplication) : DB :=
  {| projects := projects db;
     project_images := project_images db;
     segmentation_masks := segmentation_masks db;
     color_applications := rows;
     professional_results := professional_results db;
     recent_colors := recent_colors db;
     canvas_states := canvas_states db |}.

Section LedgerInserts.

(** The insert schemas of the shared schema module, which is not among the
    sources: what each parses a body into ([None] for a [ZodError]), and
    the row the table makes of the parsed values, of the [uuid] it
    generates and of [now()], the defaults of the migration.  [fits] is
    what the column types of the table let in. *)
Variables InsertProject InsertProjectImage InsertColorApplication : Type.
Variable insertProjectSchema_parse : JsValue -> option InsertProject.
Variable insertProjectImageSchema_parse : JsValue -> option InsertProjectImage.
Variable insertColorApplicationSchema_parse : JsValue -> option InsertColorApplication.
Variable project_row : InsertProject -> Id -> Z -> Project.
Variable image_row : InsertProjectImage -> Id -> Z -> ProjectImage.
Variable color_row : InsertColorApplication -> Id -> Z -> ColorApplication.
Variable project_fits : Project -> bool.
Variable image_fits : ProjectImage -> bool.
Variable color_fits : ColorApplication -> bool.

(** [POST /api/projects].  The insert is refused by the table, and the
    route answers 500, when the row does not fit the columns or its id is
    taken (the primary key). *)
Definition post_project (uuid : Id) (now : Z) (body : JsValue) (db : DB)
  : InsertAnswer Project * DB :=
  match insertProjectSchema_parse body with
  | None => (NotInserted 400 "Invalid project data", db)
  | Some validated =>
      let row := project_row validated uuid now in
      if project_fits row
         && negb (among (project_id row) (map project_id (projects db)))
      then (Inserted row, with_projects db (projects db ++ [row]))
      else (NotInserted 500 "Failed to create project", db)
  end.

(** [POST /api/projects/:projectId/images].  The schema is given the body
    with [projectId] set from the path; the table refuses a row that does
    not fit, whose id is taken, or whose project is not there (the foreign
    key). *)
Definition post_project_image (uuid : Id) (now : Z) (projectId : string)
    (body : JsObj) (db : DB) : InsertAnswer ProjectImage * DB :=
  match insertProjectImageSchema_parse
          (JObj (set_prop "projectId" (JStr projectId) body)) with
  | None => (NotInserted 400 "Invalid image data", db)
  | Some validated =>
      let row := image_row validated uuid now in
      if image_fits row
         && negb (among (image_id row) (map image_id (project_images db)))
         && among (image_project_id row) (map project_id (projects db))
      then (Inserted row, with_project_images db (project_images db ++ [row]))
      else (NotInserted 500 "Failed to save image", db)
  end.

(** [POST /api/colors].  The table refuses a row that does not fit, whose
    id is taken, or whose project or mask is not there. *)
Definition post_color (uuid : Id) (now : Z) (body : JsValue) (db : DB)
  : InsertAnswer ColorApplication * DB :=
  match insertColorApplicationSchema_parse body with
  | None => (NotInserted 400 "Invalid color data", db)
  | Some validated =>
      let row := color_row validated uuid now in
      if color_fits row
         && negb (among (color_id row) (map color_id (color_applications db)))
         && among (color_project_id row) (map project_id (projects db))
         && among (color_mask_id row) (map mask_id (segmentation_masks db))
      then (Inserted row,
            with_color_applications db (color_applications db ++ [row]))
      else (NotInserted 500 "Failed to save color", db)
  end.

End LedgerInserts.

(** Stand-ins for the image schema and the image table in the examples: a
    body is valid when [projectId] and [originalImagePath] are strings, and
    the MIME type column is a [varchar(32)]. *)
Definition parse_image (body : JsValue) : option (string * string) :=
  match member "projectId" body, member "originalImagePath" body with
  | JStr p, JStr path => Some (p, path)
  | _, _ => None
  end.

Definition image_of_parsed (v : string * string) (uuid : Id) (now : Z)
  : ProjectImage :=
  {| image_id := uuid; image_project_id := fst v;
     image_original_image_path := snd v; image_mime_type := "image/png";
     image_width := 800; image_height := 600; image_created_at := now |}.

Definition mime_type_fits (i : ProjectImage) : bool :=
  (String.length (image_mime_type i) <=? 32)%nat.

Definition project_of_name (name : string) (uuid : Id) (now : Z) : Project :=
  {| project_id := uuid; project_name := name; project_description := None;
     project_preview_image_url := None; project_created_at := now;
     project_updated_at := now |}.

(** ** Provider diagnostics *)

(** How a [fetch] of the provider's API ends: it rejects, or it resolves
    with a status line and a body that [response.json()] parses ([inr]) or
    rejects with a message ([inl]).  Reading a property of a body that
    parsed to [null] throws the engine's type error. *)
Inductive FetchOutcome : Type :=
| FetchRejected (message : string)
| HttpResponse (status : nat) (statusText : string) (json : string + JsValue).

(** One [fetch], as the provider sees it. *)
Record Fetch : Type := { fetch_url : string; fetch_authorization : string }.

(** [response.ok] *)
Definition response_ok (status : nat) : bool :=
  (200 <=? status)%nat && (status <=? 299)%nat.

(** [`Token ${process.env.REPLICATE_API_TOKEN}`] *)
Definition authorization (token : option string) : string :=
  "Token " +:+ match token with Some t => t | None => "undefined" end.

(** [`${response.status}`] *)
Definition status_text (status : nat) : string :=
  integer_toString (inject_Z (Z.of_nat status)).

(** [data.results?.length] on a parsed body that is not [null]. *)
Definition results_length (data : JsValue) : JsValue :=
  match member "results" data with
  | JArr items => JInt (Z.of_nat (length items))
  | JStr s => JInt (Z.of_nat (String.length s))
  | JObj props => get "length" props
  | _ => JUndefined
  end.

(** The object [res.json] sends: a property that is [undefined] is left
    out. *)
Definition sent_object (props : JsObj) : JsValue :=
  JObj (List.filter
          (fun kv => match snd kv with JUndefined => false | _ => true end)
          props).

(** [!!process.env.REPLICATE_API_TOKEN] *)
Definition token_configured (token : option string) : bool :=
  match token with Some t => negb (String.eqb t "") | None => false end.

(** [GET /api/test-replicate]: the answer and the fetches made. *)
Definition test_replicate (token : option string) (fetch : Fetch -> FetchOutcome)
  : Response * list Fetch :=
  if negb (token_configured token) then
    (Json 500
       (JObj [ ("message", JStr "Replicate API token not configured");
               ("error",
                 JStr "REPLICATE_API_TOKEN environment variable is missing") ]),
     [])
  else
    let request :=
      {| fetch_url := "https://api.replicate.com/v1/models";
         fetch_authorization := authorization token |} in
    let failed (error : string) :=
      Json 500
        (JObj [ ("message", JStr "Replicate API test failed");
                ("error", JStr error);
                ("tokenConfigured", JBool (token_configured token)) ]) in
    (match fetch request with
     | FetchRejected message => failed message
     | HttpResponse status statusText json =>
         if negb (response_ok status) then
           failed ("API test failed: " +:+ status_text status +:+ " " +:+ statusText)
         else
           match json with
           | inl message => failed message
           | inr JNull | inr JUndefined =>
               failed "Cannot read properties of null (reading 'results')"
           | inr data =>
               Json 200
                 (JObj [ ("message", JStr "Replicate API is working");
                         ("modelsCount", js_or (results_length data) (JInt 0));
                         ("tokenConfigured", JBool true) ])
           end
     end,
     [request]).

(** [GET /api/check-model/:owner/:name]: the answer and the fetches made. *)
Definition check_model (token : option string) (owner name : string)
    (fetch : Fetch -> FetchOutcome) : Response * list Fetch :=
  let modelName := owner +:+ "/" +:+ name in
  let request :=
    {| fetch_url := "https://api.replicate.com/v1/models/" +:+ modelName;
       fetch_authorization := authorization token |} in
  let failed (error : string) :=
    Json 500
      (JObj [ ("message", JStr "Failed to check model availability");
              ("error", JStr error) ]) in
  (match fetch request with
   | FetchRejected message => failed message
   | HttpResponse status statusText json =>
       if response_ok status then
         match json with
         | inl message => failed message
         | inr JNull | inr JUndefined =>
             failed "Cannot read properties of null (reading 'name')"
         | inr modelData =>
             Json 200
               (sent_object
                  [ ("available", JBool true);
                    ("model", member "name" modelData);
                    ("description", member "description" modelData);
                    ("visibility", member "visibility" modelData) ])
         end
       else
         Json 200
           (JObj [ ("available", JBool false);
                   ("model", JStr modelName);
                   ("status", JInt (Z.of_nat status));
                   ("statusText", JStr statusText) ])
   end,
   [request]).

(** ** The page (client) *)

Section RecentColors.

(** A color of the palette, declared in the palette data module, and its
    [id]. *)
Variable ColorItem : Type.
Variable Key : Type.
Context `{EqDecision Key}.
Variable color_key : ColorItem -> Key.

(** The update of the recent colors in [handleColorSelect]:
    [[color, ...prev.filter(c => c.id !== color.id)].slice(0, 8)]. *)
Definition recent_after_select (color : ColorItem) (prev : list ColorItem)
  : list ColorItem :=
  firstn 8
    (color
       :: List.filter (fun c => negb (bool_decide (color_key c = color_key color)))
            prev).

End RecentColors.

(** [handleZoomIn], [handleZoomOut] and the zoom part of [handleReset], on
    the zoom percentage. *)
Definition handleZoomIn (prev : Z) : Z := Z.min (prev + 10) 200.
Definition handleZoomOut (prev : Z) : Z := Z.max (prev - 10) 50.

Inductive ZoomAction : Type := ZoomIn | ZoomOut | ZoomReset.

Definition zoom_step (zoom : Z) (a : ZoomAction) : Z :=
  match a with
  | ZoomIn => handleZoomIn zoom
  | ZoomOut => handleZoomOut zoom
  | ZoomReset => 100
  end.

(** The zoom after a run of actions on a fresh workspace, which starts at
    100. *)
Definition zoom_after (actions : list ZoomAction) : Z :=
  fold_left zoom_step actions 100%Z.

Fixpoint no_dot_or_slash (s : string) : bool :=
  match s with
  | EmptyString => true
  | String c rest =>
      negb (Ascii.eqb c "."%char) && negb (Ascii.eqb c "/"%char)
      && no_dot_or_slash rest
  end.

(** [name.replace(/\.[^/.]+$/, "")], the project name [handleImageUpload]
    makes of a file name: a final dot followed, up to the end, by one or
    more characters that are neither dots nor slashes is cut off. *)
Fixpoint strip_extension (name : string) : string :=
  match name with
  | EmptyString => EmptyString
  | String c rest =>
      if Ascii.eqb c "."%char && negb (String.eqb rest "") && no_dot_or_slash rest
      then EmptyString
      else String c (strip_extension rest)
  end.

(** Stand-ins for the color schema and the color table in the examples. *)
Definition parse_color (body : JsValue) : option (string * string * string) :=
  match member "projectId" body, member "maskId" body, member "fillHex" body with
  | JStr p, JStr m, JStr hex => Some (p, m, hex)
  | _, _, _ => None
  end.

Definition color_of_parsed (v : string * string * string) (uuid : Id) (now : Z)
  : ColorApplication :=
  {| color_id := uuid; color_project_id := fst (fst v);
     color_mask_id := snd (fst v); color_fill_hex := snd v;
     color_opacity := 4 # 5; color_blend_mode := "multiply";
     color_created_at := now |}.

Definition color_columns_fit (c : ColorApplication) : bool :=
  (String.length (color_fill_hex c) <=? 7)%nat
  && (String.length (color_blend_mode c) <=? 16)%nat.

Definition any_project (p : Project) : bool := true.

Definition sofa_image_fields : JsObj :=
  [ ("projectId", JStr "p2"); ("originalImagePath", JStr "/uploads/sofa2.png");
    ("mimeType", JStr "image/png"); ("width", JInt 800); ("height", JInt 600) ].

(** * Properties *)

(** ** Lemmas on values *)


Lemma get_of_not_has (k : string) (o : JsObj) :
  has k o = false -> get k o = JUndefined.
Proof.
  induction o as [|[k' v] rest IH]; simpl; [reflexivity|].
  destruct (String.eqb k k'); simpl; [discriminate|auto].
Qed.







(** ** The provider calls of a request *)

Section GatewayCalls.

Variable Number_toString : Q -> string.
Variables (rnd : nat -> Q) (provider : Call -> ProviderOutcome).

Ltac step := cbn [negb orb andb is_string truthy lift call_getColorName
                  call_processedImageUrl bind try_catch random_seed
                  replicate_run ret throw run fst snd].

Lemma recolor_calls (env : Env) (body : JsObj) :
  calls_of rnd provider (professional_recolor Number_toString env body) =
    if recolor_reaches_provider body
    then [recolor_call Number_toString body (rnd 0%nat)]
    else [].
Proof.
  unfold calls_of, professional_recolor, recolor_reaches_provider, recolor_call.
  destruct (truthy (get "imageUrl" body)); [|reflexivity].
  destruct (truthy (get "color" body)); [|reflexivity].
  destruct (get "color" body); try reflexivity.
  destruct (get "imageUrl" body); try reflexivity.
  step.
  match goal with |- context [provider ?c] => destruct (provider c) end.
  - step. destruct (extractResultUrl output) as [e|u]; [reflexivity|].
    step. destruct (validateResultUrl u); reflexivity.
  - reflexivity.
Qed.

Lemma inpaint_calls (body : JsObj) :
  calls_of rnd provider (inpaint_professional Number_toString body) =
    if inpaint_reaches_provider body
    then [inpaint_call Number_toString body (rnd 0%nat)]
    else [].
Proof.
  unfold calls_of, inpaint_professional, inpaint_reaches_provider, inpaint_call.
  destruct (truthy (get "imageUrl" body)); [|reflexivity].
  destruct (truthy (get "maskUrl" body)); [|reflexivity].
  destruct (truthy (get "color" body)); [|reflexivity].
  destruct (get "color" body); try reflexivity.
  step.
  match goal with |- context [provider ?c] => destruct (provider c) end.
  - step. destruct (inpaint_resultUrl output _); reflexivity.
  - reflexivity.
Qed.

(** The answer of the recolor route to a request that reaches the
    provider. *)
Lemma recolor_response (env : Env) (body : JsObj) :
  recolor_reaches_provider body = true ->
  response_of rnd provider (professional_recolor Number_toString env body) =
    match provider (recolor_call Number_toString body (rnd 0%nat)) with
    | Rejected message =>
        Failed "Failed to change furniture color" (ProviderError message)
    | Resolved output =>
        match extractResultUrl output with
        | inl e => Failed "Failed to change furniture color" e
        | inr picked =>
            match validateResultUrl picked with
            | inl e => Failed "Failed to change furniture color" e
            | inr resultUrl =>
                let material := with_default (JStr "fabric") (get "material" body) in
                let furniturePart :=
                  with_default (JStr "cushion") (get "furniturePart" body) in
                let colorName :=
                  match get "color" body with
                  | JStr hex => getColorName hex
                  | _ => ""
                  end in
                Json 200
                  (JObj [ ("resultUrl", resultUrl);
                          ("maskUrl", get "imageUrl" body);
                          ("prompt",
                            JStr (recolor_prompt Number_toString colorName
                                    material furniturePart));
                          ("partLabel", furniturePart);
                          ("settings",
                            JObj [ ("material", material);
                                   ("color", JStr colorName);
                                   ("furniturePart", furniturePart) ]) ])
            end
        end
    end.
Proof.
  unfold response_of, professional_recolor, recolor_reaches_provider, recolor_call.
  destruct (truthy (get "imageUrl" body)); [|discriminate].
  destruct (truthy (get "color" body)); [|discriminate].
  destruct (get "color" body); try discriminate.
  destruct (get "imageUrl" body); try discriminate.
  intros _. step.
  match goal with |- context [provider ?c] => destruct (provider c) end.
  - step. destruct (extractResultUrl output) as [e|u]; [reflexivity|].
    step. destruct (validateResultUrl u); reflexivity.
  - reflexivity.
Qed.

(** A request that does not reach the provider is not answered 200. *)
Lemma recolor_unreached (env : Env) (body : JsObj) :
  recolor_reaches_provider body = false ->
  status_of (response_of rnd provider (professional_recolor Number_toString env body))
  <> 200%nat.
Proof.
  unfold response_of, professional_recolor, recolor_reaches_provider.
  destruct (truthy (get "imageUrl" body)); [|discriminate].
  destruct (truthy (get "color" body)); [|discriminate].
  destruct (get "color" body); try discriminate;
    destruct (get "imageUrl" body); discriminate.
Qed.

(** The answer of the inpainting route to a request that reaches the
    provider. *)
Lemma inpaint_response (body : JsObj) :
  inpaint_reaches_provider body = true ->
  response_of rnd provider (inpaint_professional Number_toString body) =
    match provider (inpaint_call Number_toString body (rnd 0%nat)) with
    | Rejected message =>
        Failed "Failed to apply professional material change" (ProviderError message)
    | Resolved output =>
        match inpaint_resultUrl output (get "imageUrl" body) with
        | inl e => Failed "Failed to apply professional material change" e
        | inr resultUrl =>
            let material := with_default (JStr "fabric") (get "material" body) in
            let furniturePart :=
              with_default (JStr "cushion") (get "furniturePart" body) in
            let promptStrength :=
              with_default (JNum (1 # 2)) (get "promptStrength" body) in
            let maskBlur := with_default (JInt 0) (get "maskBlur" body) in
            let colorName :=
              match get "color" body with
              | JStr hex => getColorName hex
              | _ => ""
              end in
            Json 200
              (JObj [ ("resultUrl", resultUrl);
                      ("prompt",
                        JStr (generateInpaintingPrompt
                                (ToString Number_toString furniturePart)
                                (ToString Number_toString material) colorName));
                      ("settings",
                        JObj [ ("promptStrength", promptStrength);
                               ("maskBlur", maskBlur);
                               ("material", material);
                               ("furniturePart", furniturePart);
                               ("color", JStr colorName) ]) ])
        end
    end.
Proof.
  unfold response_of, inpaint_professional, inpaint_reaches_provider, inpaint_call.
  destruct (truthy (get "imageUrl" body)); [|discriminate].
  destruct (truthy (get "maskUrl" body)); [|discriminate].
  destruct (truthy (get "color" body)); [|discriminate].
  destruct (get "color" body); try discriminate.
  intros _. step.
  match goal with |- context [provider ?c] => destruct (provider c) end.
  - step. destruct (inpaint_resultUrl output _); reflexivity.
  - reflexivity.
Qed.

End GatewayCalls.

(** ** Result extraction (routes module, lines 417-446) *)





(** ** The URL returned to the caller *)




(** ** Missing parameters *)

(** A parameter is missing from a body that has no such property. *)
Lemma missing_is_falsy (k : string) (body : JsObj) :
  has k body = false -> truthy (get k body) = false.
Proof. intros H. now rewrite (get_of_not_has _ _ H). Qed.

(** C3.  A recolor request without [imageUrl] or without [color], and an
    inpainting request without [imageUrl], [maskUrl] or [color], is
    answered 400, and the handler is then nothing but that answer: whatever
    the environment, no provider call is made. *)
Theorem missing_parameter_is_bad_request
    (Number_toString : Q -> string) (env : Env) (body : JsObj)
    (rnd : nat -> Q) (provider : Call -> ProviderOutcome) :
  (has "imageUrl" body = false \/ has "color" body = false ->
     professional_recolor Number_toString env body
     = Ret (bad_request "Missing required parameters: imageUrl, color")
     /\ status_of
          (response_of rnd provider (professional_recolor Number_toString env body))
        = 400%nat
     /\ calls_of rnd provider (professional_recolor Number_toString env body) = [])
  /\ (has "imageUrl" body = false \/ has "maskUrl" body = false
      \/ has "color" body = false ->
      inpaint_professional Number_toString body
      = Ret (bad_request "Missing required parameters: imageUrl, maskUrl, color")
      /\ status_of
           (response_of rnd provider (inpaint_professional Number_toString body))
         = 400%nat
      /\ calls_of rnd provider (inpaint_professional Number_toString body) = []).
Proof.
  split.
  - intros H.
    assert (Hret : professional_recolor Number_toString env body
                   = Ret (bad_request "Missing required parameters: imageUrl, color")).
    { unfold professional_recolor.
      destruct H as [H|H]; rewrite (missing_is_falsy _ _ H); cbn [negb orb];
        [|rewrite orb_true_r]; reflexivity. }
    rewrite Hret. repeat split.
  - intros H.
    assert (Hret : inpaint_professional Number_toString body
                   = Ret (bad_request
                            "Missing required parameters: imageUrl, maskUrl, color")).
    { unfold inpaint_professional.
      destruct H as [H|[H|H]]; rewrite (missing_is_falsy _ _ H); cbn [negb orb];
        rewrite ?orb_true_r; reflexivity. }
    rewrite Hret. repeat split.
Qed.

(** An instance: a recolor request that gives a color and no image. *)
Lemma missing_parameter_is_bad_request_witness :
  professional_recolor integer_toString no_domain [("color", JStr "#FF0000")]
  = Ret (bad_request "Missing required parameters: imageUrl, color")
  /\ status_of
       (response_of (draws 0) (answers JNull)
          (professional_recolor integer_toString no_domain [("color", JStr "#FF0000")]))
     = 400%nat
  /\ calls_of (draws 0) (answers JNull)
       (professional_recolor integer_toString no_domain [("color", JStr "#FF0000")])
     = [].
Proof.
  apply (proj1 (missing_parameter_is_bad_request integer_toString no_domain
                  [("color", JStr "#FF0000")] (draws 0) (answers JNull))).
  left. reflexivity.
Defined.

(** ** Segmentation placeholder *)




(** ** Prompt generator *)

(** C5 at the input that breaks it.  "toString" is no key of
    [MATERIAL_TYPES], and "constructor" none of [FURNITURE_PARTS], yet
    neither gets the generic phrase: the lookup finds the member of that
    name which every object inherits, and the prompt carries its text. *)
Lemma inherited_name_escapes_fallback :
  assoc "toString" MATERIAL_TYPES = None
  /\ generateInpaintingPrompt "cushion" "toString" "red"
     = "Photorealistic function toString() { [native code] } on sofa cushion, red, high-end textile weave, professional product photography, 8k resolution, maintaining original lighting and shadows, seamless material transition, no color bleeding, precise edges"
  /\ assoc "constructor" FURNITURE_PARTS = None
  /\ generateInpaintingPrompt "constructor" "leather" "red"
     = "Photorealistic premium leather texture on function Object() { [native code] }, red, high-end textile weave, professional product photography, 8k resolution, maintaining original lighting and shadows, seamless material transition, no color bleeding, precise edges".
Proof. repeat split. Qed.





(** The fallback is taken for every key that is neither in the table nor a
    member name. *)
Lemma get_or_fallback (table : list (string * string)) (key fallback : string) :
  assoc key table = None -> is_member_name key = false ->
  get_or table key fallback = fallback.
Proof.
  intros Hk Hm. unfold get_or, literal_get. now rewrite Hk, Hm.
Qed.

(** Part of C5 that holds: a material and a furniture part that are neither
    keys of the tables nor names of inherited members get the generic
    phrases "premium material" and "furniture part". *)
Lemma generateInpaintingPrompt_generic (furniturePart material color : string) :
  assoc material MATERIAL_TYPES = None -> is_member_name material = false ->
  assoc furniturePart FURNITURE_PARTS = None -> is_member_name furniturePart = false ->
  generateInpaintingPrompt furniturePart material color
  = "Photorealistic premium material on furniture part, " +:+ color
      +:+ ", high-end textile weave, professional product photography, 8k resolution, maintaining original lighting and shadows, seamless material transition, no color bleeding, precise edges".
Proof.
  intros Hm Hm' Hp Hp'. unfold generateInpaintingPrompt.
  now rewrite (get_or_fallback _ _ _ Hm Hm'), (get_or_fallback _ _ _ Hp Hp').
Qed.


Lemma generateInpaintingPrompt_generic_witness :
  generateInpaintingPrompt "ottoman" "silk" "red"
  = "Photorealistic premium material on furniture part, red, high-end textile weave, professional product photography, 8k resolution, maintaining original lighting and shadows, seamless material transition, no color bleeding, precise edges".
Proof.
  apply (generateInpaintingPrompt_generic "ottoman" "silk" "red"); reflexivity.
Defined.


(** Inside the table the lookup goes by the upper-case form. *)
Lemma getColorName_examples :
  getColorName "#ff0000" = "red" /\ getColorName "#2F4F4F" = "dark slate gray".
Proof. split; reflexivity. Qed.

(** ** Seeds *)






(** ** What the recolor route sends *)






(** ** Upload store (routes module, lines 25-37 and 105-134) *)







(** The other cases on concrete files: a PNG one byte above the limit is
    refused, and a PNG within it is stored under the identifier with its
    extension in lower case. *)
Lemma upload_examples :
  post_upload extname_plain no_domain "5f0c2a7e-1b1d-4c43-9a55-0c0d7f6f2a10"
    Written (Some huge_png) ∅
  = (Refused LIMIT_FILE_SIZE, ∅)
  /\ fst (post_upload extname_plain no_domain
            "5f0c2a7e-1b1d-4c43-9a55-0c0d7f6f2a10" Written (Some sofa_png) ∅)
     = Answered
         (Json 200
            (JObj [ ("path",
                      JStr "/uploads/5f0c2a7e-1b1d-4c43-9a55-0c0d7f6f2a10.png");
                    ("fullUrl",
                      JStr "http://localhost:5000/uploads/5f0c2a7e-1b1d-4c43-9a55-0c0d7f6f2a10.png");
                    ("filename", JStr "Sofa.PNG");
                    ("size", JInt 4);
                    ("mimetype", JStr "image/png") ])).
Proof. split; reflexivity. Qed.

(** ** Project ledger (routes module, lines 146-221, and the schema's
    foreign keys) *)

Lemma among_In (id : Id) (ids : list Id) : among id ids = true <-> In id ids.
Proof.
  unfold among. rewrite existsb_exists. split.
  - intros (x & Hin & Heq). apply String.eqb_eq in Heq. now subst.
  - intros Hin. exists id. split; [exact Hin|apply String.eqb_refl].
Qed.

Lemma among_key {A : Type} (key : A -> Id) (rows : list A) (id : Id) :
  among id (map key rows) = true <-> exists r, In r rows /\ key r = id.
Proof.
  rewrite among_In, in_map_iff. split; intros (r & H1 & H2); exists r; auto.
Qed.

(** A reference to a row that is not among the dead ones is a reference to
    a row that is still there. *)
Lemma survivor_is_live {A : Type} (key : A -> Id) (dead : A -> bool)
    (rows : list A) (id : Id) :
  among id (map key rows) = true ->
  among id (map key (List.filter dead rows)) = false ->
  among id (map key (List.filter (fun r => negb (dead r)) rows)) = true.
Proof.
  intros Hlive Hdead. apply among_key in Hlive. destruct Hlive as (r & Hin & Hk).
  apply among_key. exists r. split; [|exact Hk].
  apply filter_In. split; [exact Hin|].
  destruct (dead r) eqn:Hd; [|reflexivity].
  exfalso. apply not_true_iff_false in Hdead. apply Hdead.
  apply among_key. exists r. split; [|exact Hk]. now apply filter_In.
Qed.

Lemma filter_all {A : Type} (p : A -> bool) (l : list A) :
  (forall x, In x l -> p x = true) -> List.filter p l = l.
Proof.
  induction l as [|x l IH]; intros H; [reflexivity|]. simpl.
  rewrite (H x (or_introl eq_refl)). f_equal. apply IH.
  intros y Hy. apply H. now right.
Qed.

Lemma filter_none {A : Type} (p : A -> bool) (l : list A) :
  (forall x, In x l -> p x = false) -> List.filter p l = [].
Proof.
  induction l as [|x l IH]; intros H; [reflexivity|]. simpl.
  rewrite (H x (or_introl eq_refl)). apply IH.
  intros y Hy. apply H. now right.
Qed.

Lemma forallb_filter {A : Type} (p q : A -> bool) (l : list A) :
  (forall x, In x l -> q x = true -> p x = true) ->
  forallb p (List.filter q l) = true.
Proof.
  intros H. apply forallb_forall. intros x Hx.
  apply filter_In in Hx. destruct Hx as [Hin Hq]. auto.
Qed.

Lemma existsb_filter_false {A : Type} (p q : A -> bool) (l : list A) :
  (forall x, In x l -> q x = true -> p x = false) ->
  existsb p (List.filter q l) = false.
Proof.
  intros H. apply not_true_iff_false. intros Hex.
  apply existsb_exists in Hex. destruct Hex as (x & Hx & Hp).
  apply filter_In in Hx. destruct Hx as [Hin Hq].
  rewrite (H x Hin Hq) in Hp. discriminate.
Qed.

Section Cascade.

Variables (id : Id) (db : DB).

Let dead_projects : list Id :=
  map project_id (List.filter (fun p => String.eqb (project_id p) id) (projects db)).
Let dead_images : list Id :=
  map image_id
    (List.filter (fun i => among (image_project_id i) dead_projects)
       (project_images db)).
Let dead_masks : list Id :=
  map mask_id
    (List.filter (fun m => among (mask_image_id m) dead_images)
       (segmentation_masks db)).

Hypothesis live : references_live db = true.

Lemma live_parts :
  (forall i, In i (project_images db) ->
     among (image_project_id i) (map project_id (projects db)) = true)
  /\ (forall m, In m (segmentation_masks db) ->
        among (mask_image_id m) (map image_id (project_images db)) = true)
  /\ (forall c, In c (color_applications db) ->
        among (color_project_id c) (map project_id (projects db)) = true
        /\ among (color_mask_id c) (map mask_id (segmentation_masks db)) = true)
  /\ (forall r, In r (professional_results db) ->
        among (result_project_id r) (map project_id (projects db)) = true
        /\ among (result_mask_id r) (map mask_id (segmentation_masks db)) = true)
  /\ (forall c p, In c (recent_colors db) -> recent_project_id c = Some p ->
        among p (map project_id (projects db)) = true)
  /\ (forall s, In s (canvas_states db) ->
        among (canvas_project_id s) (map project_id (projects db)) = true).
Proof.
  pose proof live as H. unfold references_live in H. cbv zeta in H.
  apply andb_prop in H. destruct H as [H Hs].
  apply andb_prop in H. destruct H as [H Hk].
  apply andb_prop in H. destruct H as [H Hr].
  apply andb_prop in H. destruct H as [H Hc].
  apply andb_prop in H. destruct H as [Hi Hm].
  rewrite forallb_forall in Hi, Hm, Hc, Hr, Hk, Hs.
  split; [exact Hi|]. split; [exact Hm|].
  split; [intros c Hin; now apply andb_prop, Hc|].
  split; [intros r Hin; now apply andb_prop, Hr|].
  split; [|exact Hs].
  intros c p Hin Hp. specialize (Hk c Hin). now rewrite Hp in Hk.
Qed.

(** A project that is referenced is there, so a reference to [id] is a
    reference to a row that the delete removes. *)
Lemma referenced_project_dies (x : Id) :
  among x (map project_id (projects db)) = true -> x = id ->
  among x dead_projects = true.
Proof.
  intros Hlive ->. apply among_key in Hlive. destruct Hlive as (p & Hin & Hk).
  apply among_key. exists p. split; [|exact Hk].
  apply filter_In. split; [exact Hin|]. rewrite Hk. apply String.eqb_refl.
Qed.

Lemma dead_project_is_id (x : Id) : among x dead_projects = true -> x = id.
Proof.
  intros H. apply among_key in H. destruct H as (p & Hin & Hk).
  apply filter_In in Hin. destruct Hin as [_ Heq].
  apply String.eqb_eq in Heq. congruence.
Qed.

Lemma image_of_project_dies (x : Id) :
  among x (map image_id (images_of id db)) = true -> among x dead_images = true.
Proof.
  intros H. apply among_key in H. destruct H as (i & Hin & Hk).
  apply filter_In in Hin. destruct Hin as [Hin Hp]. apply String.eqb_eq in Hp.
  apply among_key. exists i. split; [|exact Hk].
  apply filter_In. split; [exact Hin|].
  apply referenced_project_dies; [|exact Hp].
  now apply (proj1 live_parts).
Qed.

Lemma mask_of_project_dies (x : Id) :
  among x (map mask_id (masks_of id db)) = true -> among x dead_masks = true.
Proof.
  intros H. apply among_key in H. destruct H as (m & Hin & Hk).
  apply filter_In in Hin. destruct Hin as [Hin Hi].
  apply among_key. exists m. split; [|exact Hk].
  apply filter_In. split; [exact Hin|]. now apply image_of_project_dies.
Qed.

Lemma delete_leaves_nothing_hanging :
  hangs_on_project id db (delete_from_projects id db) = false.
Proof.
  destruct live_parts as (Hi & Hm & Hc & Hr & _ & Hs).
  unfold hangs_on_project, delete_from_projects.
  cbn [project_images segmentation_masks color_applications
       professional_results canvas_states].
  fold dead_projects. fold dead_images. fold dead_masks.
  repeat (apply orb_false_intro); apply existsb_filter_false.
  - intros i Hin Hkeep. apply not_true_iff_false. intros Heq.
    apply String.eqb_eq in Heq.
    rewrite (referenced_project_dies _ (Hi i Hin) Heq) in Hkeep. discriminate.
  - intros m Hin Hkeep. apply not_true_iff_false. intros Hof.
    rewrite (image_of_project_dies _ Hof) in Hkeep. discriminate.
  - intros c Hin Hkeep. apply not_true_iff_false. intros Hof.
    apply orb_prop in Hof. destruct Hof as [Heq|Hof].
    + apply String.eqb_eq in Heq.
      rewrite (referenced_project_dies _ (proj1 (Hc c Hin)) Heq) in Hkeep.
      discriminate.
    + rewrite (mask_of_project_dies _ Hof), orb_true_r in Hkeep. discriminate.
  - intros r Hin Hkeep. apply not_true_iff_false. intros Hof.
    apply orb_prop in Hof. destruct Hof as [Heq|Hof].
    + apply String.eqb_eq in Heq.
      rewrite (referenced_project_dies _ (proj1 (Hr r Hin)) Heq) in Hkeep.
      discriminate.
    + rewrite (mask_of_project_dies _ Hof), orb_true_r in Hkeep. discriminate.
  - intros s Hin Hkeep. apply not_true_iff_false. intros Heq.
    apply String.eqb_eq in Heq.
    rewrite (referenced_project_dies _ (Hs s Hin) Heq) in Hkeep. discriminate.
Qed.

Lemma live_project_after (x : Id) :
  among x (map project_id (projects db)) = true ->
  among x dead_projects = false ->
  among x
    (map project_id
       (List.filter (fun p => negb (String.eqb (project_id p) id)) (projects db)))
  = true.
Proof. apply survivor_is_live. Qed.

Lemma live_image_after (x : Id) :
  among x (map image_id (project_images db)) = true ->
  among x dead_images = false ->
  among x
    (map image_id
       (List.filter (fun i => negb (among (image_project_id i) dead_projects))
          (project_images db)))
  = true.
Proof. apply survivor_is_live. Qed.

Lemma live_mask_after (x : Id) :
  among x (map mask_id (segmentation_masks db)) = true ->
  among x dead_masks = false ->
  among x
    (map mask_id
       (List.filter (fun m => negb (among (mask_image_id m) dead_images))
          (segmentation_masks db)))
  = true.
Proof. apply survivor_is_live. Qed.

Lemma delete_keeps_references_live :
  references_live (delete_from_projects id db) = true.
Proof.
  destruct live_parts as (Hi & Hm & Hc & Hr & Hk & Hs).
  unfold references_live, delete_from_projects.
  cbn [projects project_images segmentation_masks color_applications
       professional_results recent_colors canvas_states].
  fold dead_projects. fold dead_images. fold dead_masks.
  repeat (apply andb_true_intro; split); apply forallb_filter.
  - intros i Hin Hkeep. apply negb_true_iff in Hkeep.
    now apply live_project_after; [apply Hi|].
  - intros m Hin Hkeep. apply negb_true_iff in Hkeep.
    now apply live_image_after; [apply Hm|].
  - intros c Hin Hkeep. apply negb_true_iff, orb_false_elim in Hkeep.
    destruct Hkeep as [Hp Hmask]. apply andb_true_intro. split.
    + now apply live_project_after; [apply Hc|].
    + now apply live_mask_after; [apply Hc|].
  - intros r Hin Hkeep. apply negb_true_iff, orb_false_elim in Hkeep.
    destruct Hkeep as [Hp Hmask]. apply andb_true_intro. split.
    + now apply live_project_after; [apply Hr|].
    + now apply live_mask_after; [apply Hr|].
  - intros c Hin Hkeep. destruct (recent_project_id c) as [p|] eqn:Hp; [|reflexivity].
    apply negb_true_iff in Hkeep.
    now apply live_project_after; [apply (Hk c p)|].
  - intros s Hin Hkeep. apply negb_true_iff in Hkeep.
    now apply live_project_after; [apply Hs|].
Qed.

End Cascade.

(** The delete takes nothing else along: the other projects stay, and so
    do the images of the other projects. *)
Lemma delete_keeps_other_projects (id : Id) (db : DB) (p : Project) :
  In p (projects db) -> project_id p <> id ->
  In p (projects (delete_from_projects id db)).
Proof.
  intros Hin Hne. unfold delete_from_projects. cbn [projects].
  apply filter_In. split; [exact Hin|].
  apply negb_true_iff. now apply String.eqb_neq.
Qed.

Lemma delete_keeps_other_images (id : Id) (db : DB) (i : ProjectImage) :
  In i (project_images db) -> image_project_id i <> id ->
  In i (project_images (delete_from_projects id db)).
Proof.
  intros Hin Hne. unfold delete_from_projects. cbn [project_images].
  apply filter_In. split; [exact Hin|].
  apply negb_true_iff, not_true_iff_false. intros Hdead.
  apply Hne. exact (dead_project_is_id id db _ Hdead).
Qed.




(** What is left of the sample ledger: the chair project and its image;
    the color application went with the sofa's mask although it named the
    chair project. *)
Lemma delete_sample_project :
  snd (delete_project "p1" sample_db)
  = {| projects := [ {| project_id := "p2"; project_name := "Chair";
                        project_description := None;
                        project_preview_image_url := None;
                        project_created_at := 2; project_updated_at := 2 |} ];
       project_images :=
         [ {| image_id := "i2"; image_project_id := "p2";
              image_original_image_path := "/uploads/chair.png";
              image_mime_type := "image/png"; image_width := 640;
              image_height := 480; image_created_at := 4 |} ];
       segmentation_masks := []; color_applications := [];
       professional_results := []; recent_colors := []; canvas_states := [] |}.
Proof. reflexivity. Qed.

Lemma no_row_matches (id : Id) (db : DB) :
  among id (map project_id (projects db)) = false ->
  forall p, In p (projects db) -> String.eqb (project_id p) id = false.
Proof.
  intros Hnone p Hin. apply not_true_iff_false. intros Heq.
  apply String.eqb_eq in Heq. apply not_true_iff_false in Hnone. apply Hnone.
  apply among_key. now exists p.
Qed.







(** ** Listing the projects (routes module, lines 136-144) *)

Lemma insert_by_updated_perm (p : Project) (rows : list Project) :
  Permutation (insert_by_updated p rows) (p :: rows).
Proof.
  induction rows as [|q rest IH]; simpl; [reflexivity|].
  destruct (project_updated_at q <=? project_updated_at p)%Z; [reflexivity|].
  rewrite IH. apply perm_swap.
Qed.

Lemma order_by_updated_desc_perm (rows : list Project) :
  Permutation (order_by_updated_desc rows) rows.
Proof.
  induction rows as [|p rest IH]; simpl; [reflexivity|].
  rewrite insert_by_updated_perm. now rewrite IH.
Qed.

Lemma insert_by_updated_sorted (p : Project) (rows : list Project) :
  StronglySorted not_before rows ->
  StronglySorted not_before (insert_by_updated p rows).
Proof.
  induction rows as [|q rest IH]; intros Hs; simpl.
  - repeat constructor.
  - inversion Hs as [|? ? Hrest Hq]; subst.
    destruct (project_updated_at q <=? project_updated_at p)%Z eqn:Hle.
    + apply Z.leb_le in Hle. constructor; [exact Hs|].
      constructor; [exact Hle|].
      rewrite List.Forall_forall in Hq. apply List.Forall_forall. intros r Hr.
      specialize (Hq r Hr). unfold not_before in *. lia.
    + apply Z.leb_gt in Hle. constructor; [now apply IH|].
      apply List.Forall_forall. intros r Hr.
      apply (Permutation_in _ (insert_by_updated_perm p rest)) in Hr.
      destruct Hr as [<-|Hr]; [unfold not_before; lia|].
      rewrite List.Forall_forall in Hq. now apply Hq.
Qed.

Lemma order_by_updated_desc_sorted (rows : list Project) :
  StronglySorted not_before (order_by_updated_desc rows).
Proof.
  induction rows as [|p rest IH]; simpl; [constructor|].
  now apply insert_by_updated_sorted.
Qed.

(** The listing of [GET /api/projects] holds every project row, each as
    often as the table does, and no row comes before one that was updated
    later. *)
Theorem get_projects_sorted (db : DB) :
  Permutation (get_projects db) (projects db)
  /\ StronglySorted not_before (get_projects db).
Proof.
  split; [apply order_by_updated_desc_perm|apply order_by_updated_desc_sorted].
Qed.

(** ** Inserting routes (routes module, lines 169-183, 223-240, 548-560) *)

Lemma among_more {A : Type} (key : A -> Id) (rows more : list A) (id : Id) :
  among id (map key rows) = true -> among id (map key (rows ++ more)) = true.
Proof.
  rewrite !among_key. intros (r & Hin & Hk). exists r. split; [|exact Hk].
  apply in_or_app. now left.
Qed.

Lemma references_live_intro (db : DB) :
  (forall i, In i (project_images db) ->
     among (image_project_id i) (map project_id (projects db)) = true) ->
  (forall m, In m (segmentation_masks db) ->
     among (mask_image_id m) (map image_id (project_images db)) = true) ->
  (forall c, In c (color_applications db) ->
     among (color_project_id c) (map project_id (projects db)) = true
     /\ among (color_mask_id c) (map mask_id (segmentation_masks db)) = true) ->
  (forall r, In r (professional_results db) ->
     among (result_project_id r) (map project_id (projects db)) = true
     /\ among (result_mask_id r) (map mask_id (segmentation_masks db)) = true) ->
  (forall c p, In c (recent_colors db) -> recent_project_id c = Some p ->
     among p (map project_id (projects db)) = true) ->
  (forall s, In s (canvas_states db) ->
     among (canvas_project_id s) (map project_id (projects db)) = true) ->
  references_live db = true.
Proof.
  intros Hi Hm Hc Hr Hk Hs. unfold references_live. cbv zeta.
  repeat (apply andb_true_intro; split); apply forallb_forall.
  - exact Hi.
  - exact Hm.
  - intros c Hin. apply andb_true_intro. now apply Hc.
  - intros r Hin. apply andb_true_intro. now apply Hr.
  - intros c Hin. destruct (recent_project_id c) as [p|] eqn:Hp; [|reflexivity].
    now apply (Hk c p).
  - exact Hs.
Qed.

Section InsertProperties.

Variables InsertProject InsertProjectImage InsertColorApplication : Type.
Variable insertProjectSchema_parse : JsValue -> option InsertProject.
Variable insertProjectImageSchema_parse : JsValue -> option InsertProjectImage.
Variable insertColorApplicationSchema_parse : JsValue -> option InsertColorApplication.
Variable project_row : InsertProject -> Id -> Z -> Project.
Variable image_row : InsertProjectImage -> Id -> Z -> ProjectImage.
Variable color_row : InsertColorApplication -> Id -> Z -> ColorApplication.
Variable project_fits : Project -> bool.
Variable image_fits : ProjectImage -> bool.
Variable color_fits : ColorApplication -> bool.

Abbreviation post_project' :=
  (post_project InsertProject insertProjectSchema_parse project_row project_fits).
Abbreviation post_project_image' :=
  (post_project_image InsertProjectImage insertProjectImageSchema_parse
     image_row image_fits).
Abbreviation post_color' :=
  (post_color InsertColorApplication insertColorApplicationSchema_parse
     color_row color_fits).

(** What each route does to the ledger: nothing, or one row more in its
    table, which then passed the table's checks. *)
Lemma post_project_cases (uuid : Id) (now : Z) (body : JsValue) (db : DB) :
  (exists status message,
      post_project' uuid now body db = (NotInserted status message, db)
      /\ status <> 200%nat)
  \/ (exists row,
        post_project' uuid now body db
        = (Inserted row, with_projects db (projects db ++ [row]))
        /\ among (project_id row) (map project_id (projects db)) = false).
Proof.
  unfold post_project. destruct (insertProjectSchema_parse body) as [v|].
  - destruct (project_fits _); cbn [andb].
    + destruct (among _ _) eqn:Hkey; cbn [negb].
      * left. now eexists _, _.
      * right. now eexists.
    + left. now eexists _, _.
  - left. now eexists _, _.
Qed.

Lemma post_project_image_cases (uuid : Id) (now : Z) (projectId : string)
    (body : JsObj) (db : DB) :
  (exists status message,
      post_project_image' uuid now projectId body db
      = (NotInserted status message, db)
      /\ status <> 200%nat)
  \/ (exists row,
        post_project_image' uuid now projectId body db
        = (Inserted row, with_project_images db (project_images db ++ [row]))
        /\ among (image_id row) (map image_id (project_images db)) = false
        /\ among (image_project_id row) (map project_id (projects db)) = true).
Proof.
  unfold post_project_image.
  destruct (insertProjectImageSchema_parse _) as [v|].
  - destruct (image_fits _); cbn [andb].
    + destruct (among (image_id _) _) eqn:Hkey; cbn [negb andb].
      * left. now eexists _, _.
      * destruct (among (image_project_id _) _) eqn:Hfk.
        -- right. now eexists.
        -- left. now eexists _, _.
    + left. now eexists _, _.
  - left. now eexists _, _.
Qed.

Lemma post_color_cases (uuid : Id) (now : Z) (body : JsValue) (db : DB) :
  (exists status message,
      post_color' uuid now body db = (NotInserted status message, db)
      /\ status <> 200%nat)
  \/ (exists row,
        post_color' uuid now body db
        = (Inserted row,
           with_color_applications db (color_applications db ++ [row]))
        /\ among (color_project_id row) (map project_id (projects db)) = true
        /\ among (color_mask_id row) (map mask_id (segmentation_masks db)) = true).
Proof.
  unfold post_color.
  destruct (insertColorApplicationSchema_parse _) as [v|].
  - destruct (color_fits _); cbn [andb].
    + destruct (among (color_id _) _) eqn:Hkey; cbn [negb andb].
      * left. now eexists _, _.
      * destruct (among (color_project_id _) _) eqn:Hp; cbn [andb].
        -- destruct (among (color_mask_id _) _) eqn:Hm.
           ++ right. now eexists.
           ++ left. now eexists _, _.
        -- left. now eexists _, _.
    + left. now eexists _, _.
  - left. now eexists _, _.
Qed.

Lemma post_project_keeps_live (uuid : Id) (now : Z) (body : JsValue) (db : DB) :
  references_live db = true ->
  references_live (snd (post_project' uuid now body db)) = true.
Proof.
  intros Hlive.
  destruct (live_parts db Hlive) as (Hi & Hm & Hc & Hr & Hk & Hs).
  destruct (post_project_cases uuid now body db)
    as [(st & msg & -> & _)|(row & -> & _)]; [exact Hlive|].
  cbn [snd]. apply references_live_intro; cbn [with_projects projects
    project_images segmentation_masks color_applications
    professional_results recent_colors canvas_states].
  - intros i Hin. now apply among_more, Hi.
  - exact Hm.
  - intros c Hin. split; [now apply among_more, Hc|now apply Hc].
  - intros r Hin. split; [now apply among_more, Hr|now apply Hr].
  - intros c p Hin Hp. now apply among_more, (Hk c p).
  - intros s Hin. now apply among_more, Hs.
Qed.

Lemma post_project_image_keeps_live (uuid : Id) (now : Z) (projectId : string)
    (fields : JsObj) (db : DB) :
  references_live db = true ->
  references_live (snd (post_project_image' uuid now projectId fields db)) = true.
Proof.
  intros Hlive.
  destruct (live_parts db Hlive) as (Hi & Hm & Hc & Hr & Hk & Hs).
  destruct (post_project_image_cases uuid now projectId fields db)
    as [(st & msg & -> & _)|(row & -> & _ & Hfk)]; [exact Hlive|].
  cbn [snd]. apply references_live_intro; cbn [with_project_images projects
    project_images segmentation_masks color_applications
    professional_results recent_colors canvas_states]; try assumption.
  - intros i Hin. apply in_app_or in Hin. destruct Hin as [Hin|[<-|[]]];
      [now apply Hi|exact Hfk].
  - intros m Hin. now apply among_more, Hm.
Qed.

Lemma post_color_keeps_live (uuid : Id) (now : Z) (body : JsValue) (db : DB) :
  references_live db = true ->
  references_live (snd (post_color' uuid now body db)) = true.
Proof.
  intros Hlive.
  destruct (live_parts db Hlive) as (Hi & Hm & Hc & Hr & Hk & Hs).
  destruct (post_color_cases uuid now body db)
    as [(st & msg & -> & _)|(row & -> & Hp & Hmask)]; [exact Hlive|].
  cbn [snd]. apply references_live_intro; cbn [with_color_applications
    projects project_images segmentation_masks color_applications
    professional_results recent_colors canvas_states]; try assumption.
  intros c Hin. apply in_app_or in Hin. destruct Hin as [Hin|[<-|[]]];
    [now apply Hc|now split].
Qed.

(** No inserting route leaves a row that references a row that is not
    there: on a ledger whose references are all live, they still are after
    [POST /api/projects], [POST /api/projects/:projectId/images] and
    [POST /api/colors], whatever the request and whatever the schemas let
    through. *)
Theorem inserts_keep_references_live (uuid : Id) (now : Z) (body : JsValue)
    (projectId : string) (fields : JsObj) (db : DB) :
  references_live db = true ->
  references_live (snd (post_project' uuid now body db)) = true
  /\ references_live (snd (post_project_image' uuid now projectId fields db)) = true
  /\ references_live (snd (post_color' uuid now body db)) = true.
Proof.
  intros Hlive. split; [|split].
  - now apply post_project_keeps_live.
  - now apply post_project_image_keeps_live.
  - now apply post_color_keeps_live.
Qed.

(** A request that is not answered 200 leaves the ledger as it was: a body
    the schema rejects (400), and a row the table refuses for its columns,
    its key or a missing parent (500). *)
Theorem refused_insert_changes_nothing (uuid : Id) (now : Z) (body : JsValue)
    (projectId : string) (fields : JsObj) (db : DB) :
  (insert_status (fst (post_project' uuid now body db)) <> 200%nat ->
     snd (post_project' uuid now body db) = db)
  /\ (insert_status (fst (post_project_image' uuid now projectId fields db))
      <> 200%nat ->
      snd (post_project_image' uuid now projectId fields db) = db)
  /\ (insert_status (fst (post_color' uuid now body db)) <> 200%nat ->
      snd (post_color' uuid now body db) = db).
Proof.
  split; [|split]; intros Hst.
  - destruct (post_project_cases uuid now body db)
      as [(st & msg & Heq & _)|(row & Heq & _)]; rewrite Heq in *;
      [reflexivity|now contradiction Hst].
  - destruct (post_project_image_cases uuid now projectId fields db)
      as [(st & msg & Heq & _)|(row & Heq & _)]; rewrite Heq in *;
      [reflexivity|now contradiction Hst].
  - destruct (post_color_cases uuid now body db)
      as [(st & msg & Heq & _)|(row & Heq & _)]; rewrite Heq in *;
      [reflexivity|now contradiction Hst].
Qed.


(** A project created with success starts empty: on a ledger whose
    references are all live, its detail is then answered with the new row,
    no image and no color application. *)
Theorem new_project_is_empty (uuid : Id) (now : Z) (body : JsValue) (db : DB)
    (row : Project) :
  references_live db = true ->
  fst (post_project' uuid now body db) = Inserted row ->
  get_project (project_id row) (snd (post_project' uuid now body db))
  = ProjectDetail row [] [].
Proof.
  intros Hlive Hfst.
  destruct (live_parts db Hlive) as (Hi & _ & Hc & _).
  destruct (post_project_cases uuid now body db)
    as [(st & msg & Heq & _)|(row' & Heq & Hfresh)];
    rewrite Heq in *; cbn [fst snd] in *; [discriminate|].
  injection Hfst as ->.
  unfold get_project. cbn [with_projects projects project_images
                           color_applications].
  rewrite List.filter_app, (filter_none _ _ (no_row_matches _ db Hfresh)).
  cbn [List.filter app]. rewrite String.eqb_refl. f_equal.
  - apply filter_none. intros i Hin. apply not_true_iff_false. intros Heqb.
    apply String.eqb_eq in Heqb. specialize (Hi i Hin).
    rewrite Heqb, Hfresh in Hi. discriminate.
  - apply filter_none. intros c Hin. apply not_true_iff_false. intros Heqb.
    apply String.eqb_eq in Heqb. destruct (Hc c Hin) as [Hp _].
    rewrite Heqb, Hfresh in Hp. discriminate.
Qed.

(** Posting an image and then deleting its project leaves no image of that
    project, the new one included, and every reference live. *)
Theorem posted_image_goes_with_project (uuid : Id) (now : Z)
    (projectId : string) (fields : JsObj) (db : DB) (row : ProjectImage) :
  references_live db = true ->
  fst (post_project_image' uuid now projectId fields db) = Inserted row ->
  let db' := snd (post_project_image' uuid now projectId fields db) in
  let db'' := snd (delete_project (image_project_id row) db') in
  In row (project_images db')
  /\ (forall i, In i (project_images db'') ->
        image_project_id i <> image_project_id row)
  /\ references_live db'' = true.
Proof.
  intros Hlive Hfst db' db''.
  assert (Hlive' : references_live db' = true).
  { now apply post_project_image_keeps_live. }
  split; [|split].
  - subst db'.
    destruct (post_project_image_cases uuid now projectId fields db)
      as [(st & msg & Heq & _)|(row' & Heq & _)];
      rewrite Heq in *; cbn [fst snd] in *; [discriminate|].
    injection Hfst as ->. cbn [with_project_images project_images].
    apply in_or_app. right. now left.
  - intros i Hin Heq.
    pose proof (delete_leaves_nothing_hanging (image_project_id row) db' Hlive')
      as Hnone.
    unfold hangs_on_project in Hnone.
    repeat (apply orb_false_elim in Hnone; destruct Hnone as [Hnone _]).
    apply not_true_iff_false in Hnone. apply Hnone.
    apply existsb_exists. exists i. split; [exact Hin|].
    rewrite Heq. apply String.eqb_refl.
  - now apply delete_keeps_references_live.
Qed.

End InsertProperties.

(** The examples: a project named Desk, a second image for the sofa
    project (the body names the chair project, the path the sofa one). *)
Lemma inserts_keep_references_live_witness :
  references_live
    (snd (post_project string parse_name project_of_name any_project
            "p3" 10 (JObj [("name", JStr "Desk")]) sample_db)) = true
  /\ references_live
       (snd (post_project_image (string * string) parse_image image_of_parsed
               mime_type_fits "i3" 10 "p1" sofa_image_fields sample_db)) = true
  /\ references_live
       (snd (post_color (string * string * string) parse_color color_of_parsed
               color_columns_fit "c2" 10 (JObj [("name", JStr "Desk")])
               sample_db)) = true.
Proof.
  apply (inserts_keep_references_live string (string * string)
           (string * string * string) parse_name parse_image parse_color
           project_of_name image_of_parsed color_of_parsed any_project
           mime_type_fits color_columns_fit "p3" 10
           (JObj [("name", JStr "Desk")]) "p1" sofa_image_fields sample_db).
  reflexivity.
Defined.


Lemma new_project_is_empty_witness :
  get_project "p3"
    (snd (post_project string parse_name project_of_name any_project
            "p3" 10 (JObj [("name", JStr "Desk")]) sample_db))
  = ProjectDetail (project_of_name "Desk" "p3" 10) [] [].
Proof.
  apply (new_project_is_empty string parse_name project_of_name any_project
           "p3" 10 (JObj [("name", JStr "Desk")]) sample_db
           (project_of_name "Desk" "p3" 10)); reflexivity.
Defined.

Lemma posted_image_goes_with_project_witness :
  let db' :=
    snd (post_project_image (string * string) parse_image image_of_parsed
           mime_type_fits "i3" 10 "p1" sofa_image_fields sample_db) in
  let db'' := snd (delete_project "p1" db') in
  In (image_of_parsed ("p1", "/uploads/sofa2.png") "i3" 10) (project_images db')
  /\ (forall i, In i (project_images db'') -> image_project_id i <> "p1")
  /\ references_live db'' = true.
Proof.
  apply (posted_image_goes_with_project (string * string) parse_image
           image_of_parsed mime_type_fits "i3" 10 "p1" sofa_image_fields
           sample_db (image_of_parsed ("p1", "/uploads/sofa2.png") "i3" 10));
    reflexivity.
Defined.

(** A foreign key at work: an image for a project that is not there is
    answered 500 and not stored. *)
Lemma image_for_absent_project :
  post_project_image (string * string) parse_image image_of_parsed
    mime_type_fits "i3" 10 "p9" sofa_image_fields sample_db
  = (NotInserted 500 "Failed to save image", sample_db).
Proof. reflexivity. Qed.

(** ** The project of a posted image (routes module, lines 225-229) *)

Lemma get_set_prop (k : string) (v : JsValue) (o : JsObj) :
  get k (set_prop k v o) = v.
Proof.
  induction o as [|[k' v'] rest IH]; simpl.
  - now rewrite String.eqb_refl.
  - destruct (String.eqb k k') eqn:Hk; simpl; [now rewrite String.eqb_refl|].
    now rewrite Hk.
Qed.

Lemma get_set_prop_other (k k' : string) (v : JsValue) (o : JsObj) :
  k' <> k -> get k' (set_prop k v o) = get k' o.
Proof.
  intros Hne. apply String.eqb_neq in Hne.
  induction o as [|[k0 v0] rest IH]; simpl.
  - now rewrite Hne.
  - destruct (String.eqb k k0) eqn:Hk; simpl.
    + apply String.eqb_eq in Hk. subst k0. now rewrite Hne.
    + now rewrite IH.
Qed.

Lemma set_prop_twice (k : string) (v v' : JsValue) (o : JsObj) :
  set_prop k v (set_prop k v' o) = set_prop k v o.
Proof.
  induction o as [|[k0 v0] rest IH]; simpl.
  - now rewrite String.eqb_refl.
  - destruct (String.eqb k k0) eqn:Hk; simpl.
    + now rewrite String.eqb_refl.
    + now rewrite Hk, IH.
Qed.

(** The project of a posted image is the one the path names: the schema is
    given the path's [projectId] whatever the body says, the other fields
    of the body as they are, and a [projectId] in the body makes no
    difference to the answer or to the ledger. *)
Theorem image_project_comes_from_path (InsertProjectImage : Type)
    (insertProjectImageSchema_parse : JsValue -> option InsertProjectImage)
    (image_row : InsertProjectImage -> Id -> Z -> ProjectImage)
    (image_fits : ProjectImage -> bool)
    (uuid : Id) (now : Z) (projectId : string) (claimed : JsValue)
    (fields : JsObj) (db : DB) :
  get "projectId" (set_prop "projectId" (JStr projectId) fields) = JStr projectId
  /\ (forall k : string, k <> "projectId" ->
        get k (set_prop "projectId" (JStr projectId) fields) = get k fields)
  /\ post_project_image InsertProjectImage insertProjectImageSchema_parse
       image_row image_fits uuid now projectId
       (set_prop "projectId" claimed fields) db
     = post_project_image InsertProjectImage insertProjectImageSchema_parse
         image_row image_fits uuid now projectId fields db.
Proof.
  split; [apply get_set_prop|]. split; [intros k Hk; now apply get_set_prop_other|].
  unfold post_project_image. now rewrite set_prop_twice.
Qed.

(** ** Update, then list (routes module, lines 136-144 and 185-210) *)

Lemma key_injective {A : Type} (key : A -> Id) (rows : list A) (a b : A) :
  List.NoDup (map key rows) -> In a rows -> In b rows -> key a = key b -> a = b.
Proof.
  induction rows as [|r rest IH]; intros Hnd Ha Hb Hk; [contradiction|].
  cbn [map] in Hnd. apply List.NoDup_cons_iff in Hnd. destruct Hnd as [Hr Hnd].
  destruct Ha as [->|Ha], Hb as [->|Hb].
  - reflexivity.
  - exfalso. apply Hr. rewrite Hk. now apply in_map.
  - exfalso. apply Hr. rewrite <- Hk. now apply in_map.
  - now apply IH.
Qed.

Lemma listing_head (rows : list Project) (p : Project) :
  In p rows ->
  exists h, head (order_by_updated_desc rows) = Some h
            /\ In h rows
            /\ (project_updated_at p <= project_updated_at h)%Z.
Proof.
  intros Hin.
  pose proof (order_by_updated_desc_perm rows) as Hperm.
  pose proof (order_by_updated_desc_sorted rows) as Hs.
  apply (Permutation_in _ (Permutation_sym Hperm)) in Hin.
  destruct (order_by_updated_desc rows) as [|h t]; [contradiction|].
  exists h. split; [reflexivity|]. split.
  - apply (Permutation_in _ Hperm). now left.
  - destruct Hin as [->|Hin]; [lia|].
    inversion Hs as [|? ? _ Hh]; subst.
    rewrite List.Forall_forall in Hh. exact (Hh p Hin).
Qed.

(** A project updated with success moves to the head of the listing: when
    the update's time is later than every row's last update, and ids are
    the primary key they are declared to be, [GET /api/projects] then
    answers with the updated row first. *)
Theorem updated_project_is_listed_first (InsertProject : Type)
    (insertProjectSchema_parse : JsValue -> option InsertProject)
    (set_project : InsertProject -> Z -> Project -> Project)
    (now : Z) (id : Id) (body : JsValue) (db : DB) (validated : InsertProject) :
  (forall v n p, project_updated_at (set_project v n p) = n) ->
  insertProjectSchema_parse body = Some validated ->
  List.NoDup (map project_id (projects db)) ->
  among id (map project_id (projects db)) = true ->
  (forall p, In p (projects db) -> (project_updated_at p < now)%Z) ->
  exists row,
    fst (put_project InsertProject insertProjectSchema_parse set_project
           now id body db) = ProjectRow row
    /\ head (get_projects
               (snd (put_project InsertProject insertProjectSchema_parse
                       set_project now id body db))) = Some row.
Proof.
  intros Hset Hparse Hnd Hthere Hold.
  apply among_key in Hthere. destruct Hthere as (p0 & Hin0 & Hid0).
  unfold put_project. rewrite Hparse.
  destruct (List.filter _ (projects db)) as [|p others] eqn:Hf.
  { exfalso. assert (Hp : In p0 []); [|exact Hp].
    rewrite <- Hf. apply filter_In. split; [exact Hin0|].
    rewrite Hid0. apply String.eqb_refl. }
  assert (Hp : In p (projects db) /\ project_id p = id).
  { assert (H' : In p (p :: others)) by now left.
    rewrite <- Hf in H'. apply filter_In in H'. destruct H' as [H1 H2].
    now apply String.eqb_eq in H2. }
  destruct Hp as [Hin Hid].
  exists (set_project validated now p). split; [reflexivity|].
  cbn [snd]. unfold get_projects. cbn [projects].
  set (f := fun q : Project =>
              if String.eqb (project_id q) id
              then set_project validated now q else q).
  assert (Hrow : In (set_project validated now p) (map f (projects db))).
  { apply in_map_iff. exists p. split; [|exact Hin].
    unfold f. now rewrite Hid, String.eqb_refl. }
  destruct (listing_head _ _ Hrow) as (h & Hhead & Hh & Hle).
  rewrite Hhead. f_equal.
  apply in_map_iff in Hh. destruct Hh as (q & <- & Hq).
  unfold f in *. destruct (String.eqb (project_id q) id) eqn:Hqid.
  - apply String.eqb_eq in Hqid.
    rewrite (key_injective project_id (projects db) q p Hnd Hq Hin); congruence.
  - rewrite Hset in Hle. specialize (Hold q Hq). lia.
Qed.

(** An instance: renaming the sofa project at time 10. *)
Lemma updated_project_is_listed_first_witness :
  exists row,
    fst (put_project string parse_name set_name 10 "p1"
           (JObj [("name", JStr "Couch")]) sample_db) = ProjectRow row
    /\ head (get_projects
               (snd (put_project string parse_name set_name 10 "p1"
                       (JObj [("name", JStr "Couch")]) sample_db))) = Some row.
Proof.
  apply (updated_project_is_listed_first string parse_name set_name 10 "p1"
           (JObj [("name", JStr "Couch")]) sample_db "Couch").
  - reflexivity.
  - reflexivity.
  - repeat constructor; cbn; intuition discriminate.
  - reflexivity.
  - intros p Hp. cbn in Hp. destruct Hp as [<-|[<-|[]]]; cbn; lia.
Defined.

(** ** One call, no retry (routes module, lines 283-347 and 350-469) *)

Lemma inpaint_unreached (Number_toString : Q -> string) (rnd : nat -> Q)
    (provider : Call -> ProviderOutcome) (body : JsObj) :
  inpaint_reaches_provider body = false ->
  status_of (response_of rnd provider (inpaint_professional Number_toString body))
  <> 200%nat.
Proof.
  unfold response_of, inpaint_professional, inpaint_reaches_provider.
  destruct (truthy (get "imageUrl" body)); [|discriminate].
  destruct (truthy (get "maskUrl" body)); [|discriminate].
  destruct (truthy (get "color" body)); [|discriminate].
  destruct (get "color" body); discriminate.
Qed.

(** Neither inference route calls the provider more than once for a
    request, whatever the provider answers: a failure is not retried. *)
Theorem at_most_one_provider_call (Number_toString : Q -> string) (env : Env)
    (body : JsObj) (rnd : nat -> Q) (provider : Call -> ProviderOutcome) :
  (length (calls_of rnd provider (professional_recolor Number_toString env body))
   <= 1)%nat
  /\ (length (calls_of rnd provider (inpaint_professional Number_toString body))
      <= 1)%nat.
Proof.
  rewrite recolor_calls, inpaint_calls.
  destruct (recolor_reaches_provider body), (inpaint_reaches_provider body);
    cbn; lia.
Qed.



(** The prompt a 200 answer reports is the prompt that was sent: the
    answer's [prompt] field equals the [prompt] of the input of the one
    call the request made. *)
Theorem answered_prompt_is_prompt_sent (Number_toString : Q -> string)
    (env : Env) (body : JsObj) (rnd : nat -> Q)
    (provider : Call -> ProviderOutcome) :
  (forall payload : JsValue,
     response_of rnd provider (professional_recolor Number_toString env body)
     = Json 200 payload ->
     exists c : Call,
       calls_of rnd provider (professional_recolor Number_toString env body) = [c]
       /\ get "prompt" (call_input c) = member "prompt" payload)
  /\ (forall payload : JsValue,
        response_of rnd provider (inpaint_professional Number_toString body)
        = Json 200 payload ->
        exists c : Call,
          calls_of rnd provider (inpaint_professional Number_toString body) = [c]
          /\ get "prompt" (call_input c) = member "prompt" payload).
Proof.
  split; intros payload Hresp.
  - destruct (recolor_reaches_provider body) eqn:Hreach.
    + rewrite recolor_calls, Hreach. eexists. split; [reflexivity|].
      rewrite recolor_response in Hresp by exact Hreach.
      destruct (provider _); [|discriminate].
      destruct (extractResultUrl output) as [e|picked]; [discriminate|].
      destruct (validateResultUrl picked); [discriminate|].
      cbv zeta in Hresp. inversion Hresp. reflexivity.
    + exfalso. apply (recolor_unreached Number_toString rnd provider env body Hreach).
      now rewrite Hresp.
  - destruct (inpaint_reaches_provider body) eqn:Hreach.
    + rewrite inpaint_calls, Hreach. eexists. split; [reflexivity|].
      rewrite inpaint_response in Hresp by exact Hreach.
      destruct (provider _); [|discriminate].
      destruct (inpaint_resultUrl output _); [discriminate|].
      cbv zeta in Hresp. inversion Hresp. reflexivity.
    + exfalso. apply (inpaint_unreached Number_toString rnd provider body Hreach).
      now rewrite Hresp.
Qed.

(** An instance: the red sofa, answered with a list of one URL. *)
Lemma answered_prompt_is_prompt_sent_witness :
  exists c : Call,
    calls_of (draws 0) (answers (JArr [JStr "http://result/b.png"]))
      (professional_recolor integer_toString no_domain red_sofa) = [c]
    /\ get "prompt" (call_input c)
       = JStr (recolor_prompt integer_toString "red" (JStr "fabric")
                 (JStr "cushion")).
Proof.
  apply (proj1 (answered_prompt_is_prompt_sent integer_toString no_domain
                  red_sofa (draws 0)
                  (answers (JArr [JStr "http://result/b.png"])))
           (JObj [ ("resultUrl", JStr "http://result/b.png");
                   ("maskUrl", JStr "http://x/a.png");
                   ("prompt",
                     JStr (recolor_prompt integer_toString "red" (JStr "fabric")
                             (JStr "cushion")));
                   ("partLabel", JStr "cushion");
                   ("settings",
                     JObj [ ("material", JStr "fabric");
                            ("color", JStr "red");
                            ("furniturePart", JStr "cushion") ]) ])).
  reflexivity.
Defined.



(** ** The image URL for the provider (routes module, lines 367-396) *)

(** Without a deployment domain the image URL is left as it is, whatever
    it is; with one, a URL is still left as it is when it is neither a
    local path nor a loopback address. *)
Theorem processedImageUrl_unchanged (env : Env) (imageUrl : string) :
  dev_domain env = None
  \/ (JsString.startsWith imageUrl "/uploads" = false
      /\ JsString.startsWith imageUrl "/attached_assets" = false
      /\ JsString.startsWith imageUrl "/@fs" = false
      /\ JsString.includes imageUrl "localhost" = false
      /\ JsString.includes imageUrl "127.0.0.1" = false) ->
  processedImageUrl env imageUrl = imageUrl.
Proof.
  unfold processedImageUrl. intros [Hno|(H1 & H2 & H3 & H4 & H5)].
  - rewrite Hno.
    destruct (JsString.startsWith imageUrl "/uploads"
              || JsString.startsWith imageUrl "/attached_assets");
      [|destruct (JsString.startsWith imageUrl "/@fs")];
      now destruct (_ || _).
  - rewrite H1, H2, H3. cbn [orb]. now rewrite H4, H5.
Qed.

(** An instance: a local upload on a machine with no deployment domain. *)
Lemma processedImageUrl_unchanged_witness :
  processedImageUrl no_domain "http://localhost:5000/uploads/a.png"
  = "http://localhost:5000/uploads/a.png".
Proof.
  apply (processedImageUrl_unchanged no_domain
           "http://localhost:5000/uploads/a.png").
  left. reflexivity.
Defined.

(** ** What reaches the upload directory (routes module, lines 25-37 and
    105-134) *)


(** ** Provider diagnostics (routes module, lines 471-546) *)

(** [GET /api/test-replicate] never calls the provider without a token: it
    then answers 500 at once.  With a token it makes exactly one call, to
    the models endpoint, and answers 200 only if that call was answered
    with a success status and a body that parsed to something other than
    [null]. *)
Theorem test_replicate_needs_token (token : option string)
    (fetch : Fetch -> FetchOutcome) :
  let request :=
    {| fetch_url := "https://api.replicate.com/v1/models";
       fetch_authorization := authorization token |} in
  (token_configured token = false ->
     status_of (fst (test_replicate token fetch)) = 500%nat
     /\ snd (test_replicate token fetch) = [])
  /\ (token_configured token = true ->
      snd (test_replicate token fetch) = [request])
  /\ (status_of (fst (test_replicate token fetch)) = 200%nat ->
      token_configured token = true
      /\ exists status statusText data,
           fetch request = HttpResponse status statusText (inr data)
           /\ response_ok status = true
           /\ data <> JNull).
Proof.
  intros request. unfold test_replicate. fold request.
  destruct (token_configured token); cbn [negb].
  - split; [discriminate|]. split; [reflexivity|].
    cbn [fst]. intros Hst. split; [reflexivity|].
    destruct (fetch request) as [m|status statusText json]; [discriminate|].
    destruct (response_ok status) eqn:Hok; cbn [negb] in Hst; [|discriminate].
    destruct json as [m|data]; [discriminate|].
    exists status, statusText, data. repeat split; [exact Hok|].
    intros ->. discriminate.
  - split; [now split|]. split; [discriminate|]. cbn. discriminate.
Qed.

(** [GET /api/check-model/:owner/:name] always makes exactly one call, for
    the model the path names and whether or not a token is set, and reports
    a status that is not a success as a 200 with [available: false]; it
    answers 500 exactly when the call is rejected, or is answered with a
    success status and a body that does not parse or parses to [null]. *)
Theorem check_model_reports_any_status (token : option string)
    (owner name : string) (fetch : Fetch -> FetchOutcome) :
  let request :=
    {| fetch_url :=
         "https://api.replicate.com/v1/models/" +:+ (owner +:+ "/" +:+ name);
       fetch_authorization := authorization token |} in
  snd (check_model token owner name fetch) = [request]
  /\ (forall status statusText json,
        fetch request = HttpResponse status statusText json ->
        response_ok status = false ->
        fst (check_model token owner name fetch)
        = Json 200
            (JObj [ ("available", JBool false);
                    ("model", JStr (owner +:+ "/" +:+ name));
                    ("status", JInt (Z.of_nat status));
                    ("statusText", JStr statusText) ]))
  /\ (status_of (fst (check_model token owner name fetch)) = 500%nat
      <-> (exists message, fetch request = FetchRejected message)
          \/ exists status statusText json,
               fetch request = HttpResponse status statusText json
               /\ response_ok status = true
               /\ match json with
                  | inl _ | inr JNull | inr JUndefined => True
                  | inr _ => False
                  end).
Proof.
  intros request. unfold check_model. fold request. cbn [fst snd].
  split; [reflexivity|]. split.
  - intros status statusText json -> Hok. now rewrite Hok.
  - destruct (fetch request) as [m|status statusText json].
    + split; [|reflexivity]. intros _. left. now exists m.
    + destruct (response_ok status) eqn:Hok.
      * destruct json as [m|data].
        -- split; [|reflexivity]. intros _. right.
           exists status, statusText, (inl m). now repeat split.
        -- destruct data; cbn; split;
             try (intros _; right;
                  eexists status, statusText, _; now repeat split);
             try discriminate;
             intros [(m & Hm)|(st & tx & j & Hj & _ & Hbad)];
             try discriminate; inversion Hj; subst;
             first [reflexivity | cbn in Hbad; contradiction].
      * cbn. split; [discriminate|].
        intros [(m & Hm)|(st & tx & j & Hj & Hok' & _)]; [discriminate|].
        inversion Hj; subst. congruence.
Qed.

(** ** The page: recent colors, zoom, project name *)

Section RecentColorsProperties.

Variables (ColorItem Key : Type).
Context `{EqDecision Key}.
Variable color_key : ColorItem -> Key.

Abbreviation recent' := (recent_after_select ColorItem Key color_key).
Abbreviation others color :=
  (List.filter
     (fun c : ColorItem => negb (bool_decide (color_key c = color_key color)))).

Lemma recent_unfold (color : ColorItem) (prev : list ColorItem) :
  recent' color prev = color :: firstn 7 (others color prev).
Proof. reflexivity. Qed.

Lemma others_key (color c : ColorItem) (prev : list ColorItem) :
  In c (others color prev) -> color_key c <> color_key color.
Proof.
  intros Hin. apply filter_In in Hin. destruct Hin as [_ Hk].
  apply negb_true_iff, bool_decide_eq_false in Hk. exact Hk.
Qed.

Lemma firstn_In {A : Type} (n : nat) (l : list A) (x : A) :
  In x (firstn n l) -> In x l.
Proof.
  revert l. induction n as [|n IH]; intros [|y l]; simpl; try contradiction.
  intros [->|Hin]; [now left|right; now apply IH].
Qed.

(** The recent colors after a selection: the selected color first, never
    more than eight colors, and nothing that was not selected now or
    recent before. *)
Theorem recent_colors_bounded (color : ColorItem) (prev : list ColorItem) :
  head (recent_after_select ColorItem Key color_key color prev) = Some color
  /\ (length (recent_after_select ColorItem Key color_key color prev) <= 8)%nat
  /\ forall c : ColorItem,
       In c (recent_after_select ColorItem Key color_key color prev) ->
       c = color \/ In c prev.
Proof.
  rewrite recent_unfold. split; [reflexivity|]. split.
  - cbn [length]. pose proof (firstn_le_length 7 (others color prev)). lia.
  - intros c [<-|Hin]; [now left|right].
    apply firstn_In in Hin. now apply filter_In in Hin.
Qed.

Lemma NoDup_map_firstn {A B : Type} (f : A -> B) (n : nat) (l : list A) :
  List.NoDup (map f l) -> List.NoDup (map f (firstn n l)).
Proof.
  revert l. induction n as [|n IH]; intros [|x l] Hnd; simpl;
    try constructor.
  - cbn [map] in Hnd. apply List.NoDup_cons_iff in Hnd. destruct Hnd as [Hx _].
    intros Hin. apply Hx. apply in_map_iff in Hin.
    destruct Hin as (y & Hy & Hin). apply in_map_iff. exists y.
    split; [exact Hy|now apply firstn_In in Hin].
  - apply IH. cbn [map] in Hnd. now apply List.NoDup_cons_iff in Hnd.
Qed.

Lemma NoDup_map_filter {A B : Type} (f : A -> B) (p : A -> bool) (l : list A) :
  List.NoDup (map f l) -> List.NoDup (map f (List.filter p l)).
Proof.
  induction l as [|x l IH]; intros Hnd; simpl; [constructor|].
  cbn [map] in Hnd. apply List.NoDup_cons_iff in Hnd. destruct Hnd as [Hx Hnd].
  destruct (p x); [|now apply IH].
  cbn [map]. constructor; [|now apply IH].
  intros Hin. apply Hx. apply in_map_iff in Hin.
  destruct Hin as (y & Hy & Hin). apply in_map_iff. exists y.
  split; [exact Hy|now apply filter_In in Hin].
Qed.

(** No color is recent twice: if the recent colors had no two entries with
    one id, they have none after a selection, also of a color that was
    recent already. *)
Theorem recent_colors_stay_distinct (color : ColorItem) (prev : list ColorItem) :
  List.NoDup (map color_key prev) ->
  List.NoDup (map color_key (recent_after_select ColorItem Key color_key color prev)).
Proof.
  intros Hnd. rewrite recent_unfold. cbn [map]. constructor.
  - intros Hin. apply in_map_iff in Hin. destruct Hin as (c & Hk & Hin).
    apply firstn_In in Hin. now apply others_key in Hin.
  - now apply NoDup_map_firstn, NoDup_map_filter.
Qed.

(** Selecting the color that was selected last changes nothing. *)
Theorem recent_colors_reselect (color : ColorItem) (prev : list ColorItem) :
  recent_after_select ColorItem Key color_key color
    (recent_after_select ColorItem Key color_key color prev)
  = recent_after_select ColorItem Key color_key color prev.
Proof.
  rewrite !recent_unfold. f_equal. cbn [List.filter].
  rewrite bool_decide_eq_true_2 by reflexivity. cbn [negb].
  rewrite filter_all.
  - rewrite firstn_firstn. reflexivity.
  - intros c Hin. apply firstn_In in Hin. apply others_key in Hin.
    apply negb_true_iff, bool_decide_eq_false. exact Hin.
Qed.

End RecentColorsProperties.

(** An instance: three recent colors by name, the second selected again. *)
Lemma recent_colors_stay_distinct_witness :
  List.NoDup
    (map (fun c : string => c)
       (recent_after_select string string (fun c => c) "oak"
          ["walnut"; "oak"; "ash"])).
Proof.
  apply (recent_colors_stay_distinct string string (fun c => c) "oak"
           ["walnut"; "oak"; "ash"]).
  repeat constructor; cbn; intuition discriminate.
Defined.

Lemma zoom_step_in_range (zoom : Z) (a : ZoomAction) :
  (50 <= zoom <= 200)%Z /\ (zoom mod 10 = 0)%Z ->
  (50 <= zoom_step zoom a <= 200)%Z /\ (zoom_step zoom a mod 10 = 0)%Z.
Proof.
  intros [Hr Hm]. destruct a; cbn [zoom_step]; unfold handleZoomIn, handleZoomOut.
  - split; [lia|]. destruct (Z.min_spec (zoom + 10) 200) as [[_ ->]|[_ ->]];
      [|reflexivity].
    rewrite <- Z.add_mod_idemp_l, Hm by lia. reflexivity.
  - split; [lia|]. destruct (Z.max_spec (zoom - 10) 50) as [[_ ->]|[_ ->]];
      [reflexivity|].
    rewrite <- Zminus_mod_idemp_l, Hm. reflexivity.
  - split; [lia|reflexivity].
Qed.

(** Whatever zoom buttons are pressed, in whatever order, the zoom stays a
    multiple of ten between 50 and 200. *)
Theorem zoom_stays_in_range (actions : list ZoomAction) :
  (50 <= zoom_after actions <= 200)%Z /\ (zoom_after actions mod 10 = 0)%Z.
Proof.
  unfold zoom_after.
  assert (Hstart : (50 <= 100 <= 200)%Z /\ (100 mod 10 = 0)%Z)
    by (split; [lia|reflexivity]).
  revert Hstart. generalize 100%Z as zoom.
  induction actions as [|a rest IH]; intros zoom Hz; cbn [fold_left];
    [exact Hz|].
  apply IH. now apply zoom_step_in_range.
Qed.

(** Zooming in and out undo each other away from the ends of the range,
    and at the ends a further step does nothing. *)
Theorem zoom_in_and_out (zoom : Z) :
  ((50 <= zoom <= 190)%Z -> handleZoomOut (handleZoomIn zoom) = zoom)
  /\ ((60 <= zoom <= 200)%Z -> handleZoomIn (handleZoomOut zoom) = zoom)
  /\ ((200 <= zoom)%Z -> handleZoomIn zoom = 200%Z)
  /\ ((zoom <= 50)%Z -> handleZoomOut zoom = 50%Z).
Proof. unfold handleZoomIn, handleZoomOut. repeat split; lia. Qed.

Lemma zoom_in_and_out_witness : handleZoomOut (handleZoomIn 100) = 100%Z.
Proof. apply (proj1 (zoom_in_and_out 100)). lia. Defined.

Lemma dot_in_the_middle (base ext : string) :
  no_dot_or_slash (base +:+ "." +:+ ext) = false.
Proof.
  induction base as [|c base IH]; [reflexivity|].
  cbn [append no_dot_or_slash]. change (String c base +:+ "." +:+ ext)
    with (String c (base +:+ "." +:+ ext)).
  cbn [no_dot_or_slash]. rewrite IH. apply andb_false_r.
Qed.

(** The project name made of a file name: cutting the extension off a name
    that ends in a dot and an extension (one or more characters, none a dot
    or a slash) gives back exactly what came before that dot, dots and
    slashes included. *)
Theorem strip_extension_round_trip (base ext : string) :
  ext <> "" -> no_dot_or_slash ext = true ->
  strip_extension (base +:+ "." +:+ ext) = base.
Proof.
  intros Hne Hext. apply String.eqb_neq in Hne.
  induction base as [|c base IH].
  - change ("" +:+ "." +:+ ext) with (String "."%char ext).
    cbn [strip_extension]. now rewrite Ascii.eqb_refl, Hne, Hext.
  - change (String c base +:+ "." +:+ ext)
      with (String c (base +:+ "." +:+ ext)).
    cbn [strip_extension]. rewrite dot_in_the_middle, andb_false_r.
    now rewrite IH.
Qed.

Lemma strip_extension_round_trip_witness :
  strip_extension ("my.sofa" +:+ "." +:+ "png") = "my.sofa".
Proof. apply (strip_extension_round_trip "my.sofa" "png"); [discriminate|reflexivity]. Defined.

(** A file name is either left whole, or it is the project name made of it
    followed by a dot and a non-empty extension without dots or slashes:
    nothing else is ever cut. *)
Theorem strip_extension_cuts_an_extension (name : string) :
  strip_extension name = name
  \/ exists ext : string,
       name = strip_extension name +:+ "." +:+ ext
       /\ ext <> "" /\ no_dot_or_slash ext = true.
Proof.
  induction name as [|c rest IH]; [now left|].
  cbn [strip_extension].
  destruct (Ascii.eqb c ".") eqn:Hc; cbn [andb].
  - destruct (String.eqb rest "") eqn:Hr; cbn [negb andb].
    + apply String.eqb_eq in Hr. subst rest. now left.
    + destruct (no_dot_or_slash rest) eqn:Hn.
      * right. exists rest. apply Ascii.eqb_eq in Hc. subst c.
        repeat split; [|exact Hn]. now apply String.eqb_neq.
      * destruct IH as [->|(ext & Heq & Hne & Hext)]; [now left|].
        right. exists ext. repeat split; try assumption.
        change (String c (strip_extension rest) +:+ "." +:+ ext)
          with (String c (strip_extension rest +:+ "." +:+ ext)).
        now rewrite <- Heq.
  - destruct IH as [->|(ext & Heq & Hne & Hext)]; [now left|].
    right. exists ext. repeat split; try assumption.
    change (String c (strip_extension rest) +:+ "." +:+ ext)
      with (String c (strip_extension rest +:+ "." +:+ ext)).
    now rewrite <- Heq.
Qed.
